(** * horten: TTL-bounded locks around account updates

    A shallow embedding of the Go programs of the repository:

    - [single/main.go]: accounts guarded by a [sync.Mutex];
    - [distributed/mock_redis/main.go]: [MockRedis], [RedisLock] and a
      [ProcessTransaction] with a bounded retry loop;
    - [distributed/redis/main.go] (and its adapter variant): the same lock
      written against a Redis client.

    Balances and amounts are Go [float64] values, modelled by Rocq's
    primitive binary64 floats.  Durations and clock readings are Go
    [int64] nanosecond counts, modelled in [Z].  A [map[string]string] is a
    [gmap string string]. *)

From Stdlib Require Import ZArith Lia List Floats.
From stdpp Require Import gmap strings pretty list fin_maps.

Local Open Scope string_scope.
Local Open Scope list_scope.
Local Open Scope Z_scope.

(** ** Errors

    Go's [error] values.  [redis_Nil] is the sentinel [redis.Nil] of the
    go-redis client; every other error met in the programs is built by
    [fmt.Errorf] from a message, or is an error of the backing client that
    the programs pass on untouched. *)

Inductive error : Type :=
  | redis_Nil
  | Errorf (msg : string).

Definition key_not_found : error := Errorf "key not found".
Definition lock_not_found : error := Errorf "lock not found".

(** [time.Second] and [time.Millisecond], in nanoseconds. *)
Definition Millisecond : Z := 1000000.
Definition Second : Z := 1000 * Millisecond.

(** ** The in-process lock store: [MockRedis]

    [mu] serialises the three methods, so each of them is one atomic state
    transformer.  [SetNX] also starts a goroutine that sleeps for the TTL and
    then removes the key if it still holds the value; such a sleeping
    goroutine is a [reaper], kept in the [World] next to the store with the
    clock reading at which its sleep ends. *)

Record MockRedis : Type := { data : gmap string string }.

Definition NewMockRedis : MockRedis := {| data := ∅ |}.

Record reaper : Type := { wake : Z; rkey : string; rvalue : string }.

Record World : Type := {
  rdb : MockRedis;
  sleepers : list reaper;
  now : Z
}.

Definition NewWorld (t : Z) : World :=
  {| rdb := NewMockRedis; sleepers := []; now := t |}.

(** The body of the goroutine once [time.Sleep(ttl)] has returned: reading a
    missing key of a Go map gives the empty string; [delete] of a missing key
    does nothing. *)
Definition reap (r : reaper) (m : MockRedis) : MockRedis :=
  if String.eqb (default "" (data m !! rkey r)) (rvalue r)
  then {| data := delete (rkey r) (data m) |}
  else m.

Module Mock.

(** [func (r *MockRedis) SetNX(key, value string, ttl time.Duration) (bool, error)] *)
Definition SetNX (key value : string) (ttl : Z) (w : World)
  : (bool * option error) * World :=
  match data (rdb w) !! key with
  | Some _ => ((false, None), w)
  | None =>
      ((true, None),
       {| rdb := {| data := <[key := value]> (data (rdb w)) |};
          sleepers := sleepers w ++
                      [{| wake := now w + Z.max 0 ttl; rkey := key; rvalue := value |}];
          now := now w |})
  end.

(** [func (r *MockRedis) Get(key string) (string, error)] *)
Definition Get (key : string) (w : World) : (string * option error) * World :=
  match data (rdb w) !! key with
  | None => (("", Some key_not_found), w)
  | Some value => ((value, None), w)
  end.

(** [func (r *MockRedis) Del(key string) (int, error)] *)
Definition Del (key : string) (w : World) : (Z * option error) * World :=
  match data (rdb w) !! key with
  | None => ((0, None), w)
  | Some _ =>
      ((1, None),
       {| rdb := {| data := delete key (data (rdb w)) |};
          sleepers := sleepers w;
          now := now w |})
  end.

(** The sleep of reaper [r] has ended at clock reading [t]. *)
Definition due (t : Z) (r : reaper) : bool := wake r <=? t.

(** [time.Sleep(d)], seen from the store: the clock moves on by [d] (not at
    all when [d] is negative), and every reaper whose own sleep has ended by
    then runs, in the order in which the reapers were started. *)
Definition Sleep (d : Z) (w : World) : World :=
  let t := now w + Z.max 0 d in
  {| rdb := fold_left (fun m r => reap r m) (List.filter (due t) (sleepers w)) (rdb w);
     sleepers := List.filter (fun r => negb (due t r)) (sleepers w);
     now := t |}.

(** A record is live when the key is in the map. *)
Definition live (key : string) (w : World) : Prop := is_Some (data (rdb w) !! key).

End Mock.

(** ** Accounts and transactions

    [type Account struct { AccountNumber string; Balance float64 }] and
    [type Transaction struct { AccountNumber string; Amount float64 }].  The
    account number of a transaction is the projection [TxAccountNumber], as
    the two records cannot share a field name. *)

Record Account : Type := { AccountNumber : string; Balance : float }.

Record Transaction : Type := { TxAccountNumber : string; Amount : float }.

(** What a [ProcessTransaction] reports on standard output: the transaction
    was applied ("Processed transaction of ..."), rejected ("Insufficient
    funds for account ..."), skipped because the lock was held ("Could not
    acquire lock ..."), or abandoned on an error of the lock store ("Error
    acquiring lock ..."). *)
Inductive outcome : Type :=
  | Processed
  | InsufficientFunds
  | LockAcquisitionFailed
  | AcquireError (e : error).

(** The statements every [ProcessTransaction] runs once it holds the lock:
    [if amount < 0 && balance+amount < 0 { print; return }; balance += amount]. *)
Definition update_balance (account : Account) (amount : float) : Account * outcome :=
  if ((amount <? 0) && (Balance account + amount <? 0))%float
  then (account, InsufficientFunds)
  else ({| AccountNumber := AccountNumber account;
           Balance := (Balance account + amount)%float |}, Processed).

(** ** [single/main.go]

    [a.mu.Lock()] with the deferred [Unlock] makes the whole body of
    [ProcessTransaction] one critical section of the account. *)
Module Single.

Definition ProcessTransaction (a : Account) (amount : float) : Account * outcome :=
  update_balance a amount.

(** The critical sections of the goroutines working on one account, entered
    in the order of [amounts]: the account at the end, and what each printed. *)
Fixpoint process_all (a : Account) (amounts : list float) : Account * list outcome :=
  match amounts with
  | [] => (a, [])
  | amount :: rest =>
      let '(a', out) := ProcessTransaction a amount in
      let '(final, outs) := process_all a' rest in
      (final, out :: outs)
  end.

(** The loop of [main] starts one goroutine per transaction whose account
    exists; the mutexes serialise them per account.  [run order accounts] is
    the outcome when the critical sections are entered in the order [order]:
    the accounts at the end and, for each transaction, what was printed. *)
Fixpoint run (order : list Transaction) (accounts : gmap string Account)
  : gmap string Account * list (Transaction * option outcome) :=
  match order with
  | [] => (accounts, [])
  | t :: rest =>
      match accounts !! TxAccountNumber t with
      | None =>
          let '(final, log) := run rest accounts in
          (final, (t, None) :: log)
      | Some account =>
          let '(account', out) := ProcessTransaction account (Amount t) in
          let '(final, log) := run rest (<[TxAccountNumber t := account']> accounts) in
          (final, (t, Some out) :: log)
      end
  end.

End Single.

(** ** The lock-store interface

    [type RedisClient interface { SetNX; Get; Del }], each method a state
    transformer of the world [W] the client talks to.  A [nil] error is
    [None]. *)
Record RedisClient (W : Type) : Type := {
  SetNX : string -> string -> Z -> W -> (bool * option error) * W;
  Get : string -> W -> (string * option error) * W;
  Del : string -> W -> (Z * option error) * W
}.
Arguments SetNX {W} _ _ _ _ _.
Arguments Get {W} _ _ _.
Arguments Del {W} _ _ _.

(** [time.Sleep] and [time.Now().UnixNano()]. *)
Record Clock (W : Type) : Type := {
  Sleep : Z -> W -> W;
  UnixNano : W -> Z
}.
Arguments Sleep {W} _ _ _.
Arguments UnixNano {W} _ _.

Definition mock_client : RedisClient World :=
  {| SetNX := Mock.SetNX; Get := Mock.Get; Del := Mock.Del |}.

Definition mock_clock : Clock World :=
  {| Sleep := Mock.Sleep; UnixNano := now |}.

(** A client whose server cannot be reached: every command fails. *)
Definition connection_refused : error := Errorf "dial tcp: connection refused".

Definition unreachable_client : RedisClient World :=
  {| SetNX := fun _ _ _ w => ((false, Some connection_refused), w);
     Get := fun _ w => (("", Some connection_refused), w);
     Del := fun _ w => ((0, Some connection_refused), w) |}.

(** [type RedisLock struct { client; key string; value string }]; the client
    is the one of the enclosing section. *)
Record RedisLock : Type := { key : string; value : string }.

(** Calls a [ProcessTransaction] makes, in order. *)
Inductive event : Type :=
  | EvAcquire (lock : RedisLock) (ttl : Z) (acquired : bool) (err : option error)
  | EvSleep (d : Z)
  | EvRelease (lock : RedisLock) (err : option error).

(** What a [ProcessTransaction] leaves behind: the world, the account it was
    given a pointer to, what it printed, and the calls it made. *)
Record result (W : Type) : Type := {
  world : W;
  account_after : Account;
  reported : outcome;
  trace : list event
}.
Arguments world {W} _.
Arguments account_after {W} _.
Arguments reported {W} _.
Arguments trace {W} _.

(** ** [distributed/mock_redis/main.go]

    [RedisLock] and [ProcessTransaction] of the program that runs against
    [MockRedis].  They are written over the client and the clock of the
    section, so that the branches taken on an error of the client are kept;
    [mock_client] and [mock_clock] give the program as it runs. *)
Module MockMain.
Section WithClient.
Context {W : Type} (client : RedisClient W) (time : Clock W).

(** [func (lock *RedisLock) AcquireLock(ttl time.Duration) (bool, error)] *)
Definition AcquireLock (lock : RedisLock) (ttl : Z) (w : W)
  : (bool * option error) * W :=
  SetNX client (key lock) (value lock) ttl w.

(** [func (lock *RedisLock) ReleaseLock() error] *)
Definition ReleaseLock (lock : RedisLock) (w : W) : option error * W :=
  let '((val, err), w1) := Get client (key lock) w in
  match err with
  | Some _ => (Some lock_not_found, w1)
  | None =>
      if String.eqb val (value lock)
      then
        let '((_, err'), w2) := Del client (key lock) w1 in
        match err' with
        | Some e => (Some e, w2)
        | None => (None, w2)
        end
      else (None, w1)
  end.

(** The lock a [ProcessTransaction] builds:
    [fmt.Sprintf("account:%s:lock", ...)] and
    [fmt.Sprintf("unique-identifier-%d", time.Now().UnixNano())]. *)
Definition new_lock (account : Account) (w : W) : RedisLock :=
  {| key := "account:" +:+ AccountNumber account +:+ ":lock";
     value := "unique-identifier-" +:+ pretty (UnixNano time w) |}.

(** How the retry loop [for i := 0; i < 3; i++] is left. *)
Inductive loop_exit : Type :=
  | LoopBreak               (* [acquired]: [break] *)
  | LoopError (e : error)   (* [err != nil]: [return] *)
  | LoopSkip                (* [i == 2]: [return] *)
  | LoopEnd.                (* [i < 3] is false *)

(** The loop, over the values [i] still to be taken. *)
Fixpoint retry_loop (indices : list Z) (lock : RedisLock) (w : W) (tr : list event)
  : loop_exit * W * list event :=
  match indices with
  | [] => (LoopEnd, w, tr)
  | i :: rest =>
      let '((acquired, err), w1) := AcquireLock lock (5 * Second) w in
      let tr1 := tr ++ [EvAcquire lock (5 * Second) acquired err] in
      match err with
      | Some e => (LoopError e, w1, tr1)
      | None =>
          if acquired then (LoopBreak, w1, tr1)
          else if i =? 2 then (LoopSkip, w1, tr1)
          else retry_loop rest lock (Sleep time (100 * Millisecond) w1)
                 (tr1 ++ [EvSleep (100 * Millisecond)])
      end
  end.

(** [func ProcessTransaction(account *Account, transaction Transaction, rdb *MockRedis, wg *sync.WaitGroup)] *)
Definition ProcessTransaction (account : Account) (transaction : Transaction) (w : W)
  : result W :=
  let lock := new_lock account w in
  let '(exit, w1, tr) := retry_loop [0; 1; 2] lock w [] in
  match exit with
  | LoopError e =>
      {| world := w1; account_after := account; reported := AcquireError e; trace := tr |}
  | LoopSkip =>
      {| world := w1; account_after := account; reported := LockAcquisitionFailed;
         trace := tr |}
  | LoopBreak | LoopEnd =>
      let '(account', out) := update_balance account (Amount transaction) in
      let '(err, w2) := ReleaseLock lock w1 in
      {| world := w2; account_after := account'; reported := out;
         trace := tr ++ [EvRelease lock err] |}
  end.

End WithClient.

(** The goroutines of [main], run one after the other in the order [order]. *)
Fixpoint run {W : Type} (client : RedisClient W) (time : Clock W)
    (order : list Transaction) (accounts : gmap string Account) (w : W)
  : gmap string Account * list (Transaction * option outcome) * W :=
  match order with
  | [] => (accounts, [], w)
  | t :: rest =>
      match accounts !! TxAccountNumber t with
      | None =>
          let '(final, log, w') := run client time rest accounts w in
          (final, (t, None) :: log, w')
      | Some account =>
          let r := ProcessTransaction client time account t w in
          let '(final, log, w') :=
            run client time rest (<[TxAccountNumber t := account_after r]> accounts)
              (world r) in
          (final, (t, Some (reported r)) :: log, w')
      end
  end.

End MockMain.

(** ** [distributed/redis/main.go]

    The lock over a go-redis client, and over the [RedisClient] interface in
    the adapter variant of the same program: one attempt to acquire, a fixed
    token, and [redis.Nil] told apart from the other errors of [Get]. *)
Module RedisMain.
Section WithClient.
Context {W : Type} (client : RedisClient W).

(** [func (lock *RedisLock) AcquireLock(ttl time.Duration) (bool, error)] *)
Definition AcquireLock (lock : RedisLock) (ttl : Z) (w : W)
  : (bool * option error) * W :=
  let '((success, err), w1) := SetNX client (key lock) (value lock) ttl w in
  match err with
  | Some e => ((false, Some e), w1)
  | None => ((success, None), w1)
  end.

(** [func (lock *RedisLock) ReleaseLock() error] *)
Definition ReleaseLock (lock : RedisLock) (w : W) : option error * W :=
  let '((val, err), w1) := Get client (key lock) w in
  match err with
  | Some redis_Nil => (Some lock_not_found, w1)
  | Some e => (Some e, w1)
  | None =>
      if String.eqb val (value lock)
      then
        let '((_, err'), w2) := Del client (key lock) w1 in
        match err' with
        | Some e => (Some e, w2)
        | None => (None, w2)
        end
      else (None, w1)
  end.

(** [value: "unique-identifier", // Use a UUID in production] *)
Definition new_lock (account : Account) : RedisLock :=
  {| key := "account:" +:+ AccountNumber account +:+ ":lock";
     value := "unique-identifier" |}.

(** [func ProcessTransaction(account *Account, transaction Transaction, rdb *redis.Client, wg *sync.WaitGroup)] *)
Definition ProcessTransaction (account : Account) (transaction : Transaction) (w : W)
  : result W :=
  let lock := new_lock account in
  let '((acquired, err), w1) := AcquireLock lock (5 * Second) w in
  let tr := [EvAcquire lock (5 * Second) acquired err] in
  match err with
  | Some e =>
      {| world := w1; account_after := account; reported := AcquireError e; trace := tr |}
  | None =>
      if negb acquired
      then {| world := w1; account_after := account; reported := LockAcquisitionFailed;
              trace := tr |}
      else
        let '(account', out) := update_balance account (Amount transaction) in
        let '(err', w2) := ReleaseLock lock w1 in
        {| world := w2; account_after := account'; reported := out;
           trace := tr ++ [EvRelease lock err'] |}
  end.

End WithClient.
End RedisMain.

(** The store once the record of [k] has been deleted. *)
Definition without (k : string) (w : World) : World :=
  {| rdb := {| data := delete k (data (rdb w)) |};
     sleepers := sleepers w;
     now := now w |}.

(** ** Histories of the store

    What the callers of one [MockRedis] do to it over time: the three
    methods, and sleeping. *)
Inductive store_op : Type :=
  | OpSetNX (k v : string) (ttl : Z)
  | OpGet (k : string)
  | OpDel (k : string)
  | OpSleep (d : Z).

Definition step (o : store_op) (w : World) : World :=
  match o with
  | OpSetNX k v ttl => snd (Mock.SetNX k v ttl w)
  | OpGet k => snd (Mock.Get k w)
  | OpDel k => snd (Mock.Del k w)
  | OpSleep d => Mock.Sleep d w
  end.

Definition run_ops (ops : list store_op) (w : World) : World :=
  fold_left (fun w o => step o w) ops w.

(** The time that passes during [ops]. *)
Fixpoint elapsed (ops : list store_op) : Z :=
  match ops with
  | [] => 0
  | OpSleep d :: rest => Z.max 0 d + elapsed rest
  | _ :: rest => elapsed rest
  end.

(** [o] is a [SetNX] on [k0] that answers [true]. *)
Definition wins (k0 : string) (o : store_op) (w : World) : bool :=
  match o with
  | OpSetNX k v ttl => String.eqb k k0 && fst (fst (Mock.SetNX k v ttl w))
  | _ => false
  end.

(** Some operation of [ops], run from [w], acquires [k0] again. *)
Fixpoint reacquired (k0 : string) (ops : list store_op) (w : World) : bool :=
  match ops with
  | [] => false
  | o :: rest => wins k0 o w || reacquired k0 rest (step o w)
  end.

(** ** Traces *)

(** The answers of the [AcquireLock] calls of a trace, in order. *)
Fixpoint attempts (tr : list event) : list (bool * option error) :=
  match tr with
  | [] => []
  | EvAcquire _ _ acquired err :: rest => (acquired, err) :: attempts rest
  | _ :: rest => attempts rest
  end.

(** The calls of one [ProcessTransaction] on [lock]: attempts to acquire
    the lock for five seconds, each but the last one unsuccessful and
    followed by a sleep of 100 ms before the next; after the last attempt,
    at most the deferred release. *)
Inductive retry_shape (lock : RedisLock) : list event -> Prop :=
  | shape_last acquired err tail :
      tail = [] \/ (exists err', tail = [EvRelease lock err']) ->
      retry_shape lock (EvAcquire lock (5 * Second) acquired err :: tail)
  | shape_again rest :
      retry_shape lock rest ->
      retry_shape lock
        (EvAcquire lock (5 * Second) false None :: EvSleep (100 * Millisecond) :: rest).

(** The tokens a trace presents to the lock store, one per [AcquireLock]. *)
Fixpoint tokens (tr : list event) : list string :=
  match tr with
  | [] => []
  | EvAcquire lock _ _ _ :: rest => value lock :: tokens rest
  | _ :: rest => tokens rest
  end.

(** ** The scenario of [main] and of the tests *)

(** [accounts] and [transactions] of [main] in [single/main.go] and of
    [TestProcessTransactionWithMockRedis]. *)
Definition accounts : gmap string Account :=
  <["11111" := {| AccountNumber := "11111"; Balance := 1000 |}]>
    (<["22222" := {| AccountNumber := "22222"; Balance := 2000 |}]> ∅).

Definition transactions : list Transaction :=
  [ {| TxAccountNumber := "11111"; Amount := (-200) |};
    {| TxAccountNumber := "11111"; Amount := 300 |};
    {| TxAccountNumber := "22222"; Amount := (-500) |};
    {| TxAccountNumber := "22222"; Amount := (-3000) |};
    {| TxAccountNumber := "11111"; Amount := 100 |} ].

Definition is_rejected (entry : Transaction * option outcome) : bool :=
  match snd entry with
  | Some InsufficientFunds => true
  | _ => false
  end.

(** The transactions a run reported as "Insufficient funds". *)
Definition rejected (log : list (Transaction * option outcome)) : list Transaction :=
  List.map fst (List.filter is_rejected log).

(** What the scenario is expected to give. *)
Definition scenario_ok (run : gmap string Account * list (Transaction * option outcome))
  : Prop :=
  Balance <$> fst run !! "11111" = Some 1200%float /\
  Balance <$> fst run !! "22222" = Some 1500%float /\
  rejected (snd run) = [ {| TxAccountNumber := "22222"; Amount := (-3000) |} ] /\
  length (snd run) = 5%nat.

(** ** Runs on whole numbers *)

(** No critical section of the run was rejected. *)
Definition all_processed (run : Account * list outcome) : Prop :=
  Forall (fun out => out = Processed) (snd run).

(** The sum of whole-number amounts, and the sum of their magnitudes. *)
Definition total (zs : list Z) : Z := fold_right Z.add 0 zs.
Definition magnitude (zs : list Z) : Z := fold_right (fun z acc => Z.abs z + acc) 0 zs.

(** [float64(z)]: the conversion of a whole number. *)
Definition float_of_Z (z : Z) : float :=
  match z with
  | Z0 => 0%float
  | Zpos _ => of_uint63 (Uint63.of_Z z)
  | Zneg p => (- of_uint63 (Uint63.of_Z (Zpos p)))%float
  end.

(** ** The test double [MockRedisClient]

    The client the adapter variant of the Redis program is tested with.  Its
    map [locks] is the [data] of the world; [SetNX] and [Del] are those of
    [MockRedis] (with an [int64] count), but [Get] reports a missing key as
    the empty string with a [nil] error. *)
Module MockClient.

(** [func (m *MockRedisClient) SetNX(key, value string, ttl time.Duration) (bool, error)] *)
Definition SetNX (key value : string) (ttl : Z) (w : World)
  : (bool * option error) * World :=
  match data (rdb w) !! key with
  | Some _ => ((false, None), w)
  | None =>
      ((true, None),
       {| rdb := {| data := <[key := value]> (data (rdb w)) |};
          sleepers := sleepers w ++
                      [{| wake := now w + Z.max 0 ttl; rkey := key; rvalue := value |}];
          now := now w |})
  end.

(** [func (m *MockRedisClient) Get(key string) (string, error)] *)
Definition Get (key : string) (w : World) : (string * option error) * World :=
  match data (rdb w) !! key with
  | None => (("", None), w)
  | Some value => ((value, None), w)
  end.

(** [func (m *MockRedisClient) Del(key string) (int64, error)] *)
Definition Del (key : string) (w : World) : (Z * option error) * World :=
  match data (rdb w) !! key with
  | Some _ =>
      ((1, None),
       {| rdb := {| data := delete key (data (rdb w)) |};
          sleepers := sleepers w;
          now := now w |})
  | None => ((0, None), w)
  end.

End MockClient.

Definition test_double_client : RedisClient World :=
  {| SetNX := MockClient.SetNX; Get := MockClient.Get; Del := MockClient.Del |}.

(** ** [service]: the account read service *)
Module Service.

(** [type Account struct { AccountNumber, CustomerName string; Balance float64 }] *)
Record Account : Type := {
  AccountNumber : string;
  CustomerName : string;
  Balance : float
}.

(** [var accounts = map[string]Account{...}] *)
Definition accounts : gmap string Account :=
  <["123456" := {| AccountNumber := "123456"; CustomerName := "John Doe";
                   Balance := 1000 |}]>
    (<["654321" := {| AccountNumber := "654321"; CustomerName := "Jane Doe";
                      Balance := 2000 |}]> ∅).

Definition account_not_found : error := Errorf "account not found".

(** [Account{}] *)
Definition zero_account : Account :=
  {| AccountNumber := ""; CustomerName := ""; Balance := 0 |}.

(** [func (s *AccountService) GetBalance(accountNumber string) (Account, error)];
    [s.mutex] makes the call one step of the world. *)
Definition GetBalance {W : Type} (time : Clock W) (accountNumber : string) (w : W)
  : (Account * option error) * W :=
  match accounts !! accountNumber with
  | Some account => ((account, None), Sleep time (100 * Millisecond) w)
  | None => ((zero_account, Some account_not_found), w)
  end.

End Service.

(** ** [handler]: the balance endpoint *)

(** [err.Error()] *)
Definition error_message (e : error) : string :=
  match e with
  | redis_Nil => "redis: nil"
  | Errorf msg => msg
  end.

Module Handler.

(** What is written to the [http.ResponseWriter]: a text, or the bytes
    [json.Marshal] gives for an account. *)
Inductive body : Type :=
  | Text (s : string)
  | Json (account : Service.Account).

Record response : Type := {
  status : Z;
  content_type : string;
  payload : body
}.

Definition StatusOK : Z := 200.
Definition StatusBadRequest : Z := 400.
Definition StatusNotFound : Z := 404.

(** [http.Error(w, msg, code)]: a plain-text reply, the message followed by
    a newline. *)
Definition http_Error (msg : string) (code : Z) : response :=
  {| status := code;
     content_type := "text/plain; charset=utf-8";
     payload := Text (msg +:+ String (Ascii.ascii_of_nat 10) "") |}.

(** [func (h *Handler) GetAccountBalanceHandler(w http.ResponseWriter, r *http.Request)],
    as a function of [r.URL.Query().Get("accountNumber")], which is the empty
    string when the request has no such parameter. *)
Definition GetAccountBalanceHandler {W : Type} (time : Clock W)
    (accountNumber : string) (w : W) : response * W :=
  if String.eqb accountNumber ""
  then (http_Error "accountNumber is required" StatusBadRequest, w)
  else
    let '((account, err), w1) := Service.GetBalance time accountNumber w in
    match err with
    | Some e => (http_Error (error_message e) StatusNotFound, w1)
    | None =>
        ({| status := StatusOK; content_type := "application/json";
            payload := Json account |}, w1)
    end.

End Handler.

(** ** More about histories *)

(** Some operation of [ops] is a [Del] of [k0]. *)
Definition deletes (k0 : string) (ops : list store_op) : bool :=
  existsb (fun o => match o with OpDel k => String.eqb k k0 | _ => false end) ops.

(** The sum of the debits among whole-number amounts (a number [<= 0]). *)
Definition debits (zs : list Z) : Z := fold_right (fun z acc => Z.min z 0 + acc) 0 zs.

(** The amounts of the transactions of [order] on account [k]. *)
Definition amounts_on (k : string) (order : list Transaction) : list float :=
  List.map Amount (List.filter (fun t => String.eqb (TxAccountNumber t) k) order).

(** * Binary64 arithmetic

    Facts about float64 addition and comparison, derived from the
    specification of the primitive floats ([Prim2SF], [SFadd], [SFltb]):
    the sign of a sum, and the exactness of the sum of two whole numbers
    below [2^53]. *)

(** *** Rounding keeps the sign *)

Lemma iter_pos_invariant {A : Type} (P : A -> Prop) (f : A -> A) :
  (forall x, P x -> P (f x)) -> forall p x, P x -> P (SpecFloat.iter_pos f p x).
Proof.
  intros Hf. induction p as [p IH | p IH |]; intros x Hx; simpl.
  - apply IH, IH, Hf, Hx.
  - apply IH, IH, Hx.
  - apply Hf, Hx.
Qed.

Lemma shr_1_nonneg mrs : 0 <= shr_m mrs -> 0 <= shr_m (shr_1 mrs).
Proof.
  destruct mrs as [m r s]. simpl. intros H.
  destruct m as [| [p | p |] | p]; simpl; lia.
Qed.

Lemma shr_fexp_nonneg m e l :
  0 <= m -> 0 <= shr_m (fst (shr_fexp prec emax m e l)).
Proof.
  intros H. unfold shr_fexp, shr.
  assert (H0 : 0 <= shr_m (shr_record_of_loc m l)).
  { destruct l as [| []]; exact H. }
  destruct (fexp prec emax (Zdigits2 m + e) - e); simpl; try exact H0.
  apply (iter_pos_invariant (fun mrs => 0 <= shr_m mrs)); [apply shr_1_nonneg | exact H0].
Qed.

Lemma round_nearest_even_nonneg m l : 0 <= m -> 0 <= round_nearest_even m l.
Proof.
  intros H. destruct l as [| []]; simpl; try lia.
  destruct (Z.even m); lia.
Qed.

(** A datum that is not NaN and has sign [s]. *)
Inductive signed_like (s : bool) : spec_float -> Prop :=
  | like_zero : signed_like s (S754_zero s)
  | like_finite m e : signed_like s (S754_finite s m e)
  | like_infinity : signed_like s (S754_infinity s).

Lemma binary_round_aux_signed s m e l :
  0 <= m -> signed_like s (binary_round_aux prec emax s m e l).
Proof.
  intros H. unfold binary_round_aux.
  pose proof (shr_fexp_nonneg m e l H) as H1.
  destruct (shr_fexp prec emax m e l) as [mrs' e']. simpl in H1.
  pose proof (shr_fexp_nonneg _ e' loc_Exact
                (round_nearest_even_nonneg _ (loc_of_shr_record mrs') H1)) as H2.
  destruct (shr_fexp prec emax _ e' loc_Exact) as [mrs'' e'']. simpl in H2.
  destruct (shr_m mrs''); [constructor | | lia].
  destruct (e'' <=? emax - prec); constructor.
Qed.

Lemma binary_normalize_signed m e :
  match m with
  | Z0 => binary_normalize prec emax m e false = S754_zero false
  | Zpos _ => signed_like false (binary_normalize prec emax m e false)
  | Zneg _ => signed_like true (binary_normalize prec emax m e false)
  end.
Proof.
  destruct m; [reflexivity | |]; unfold binary_normalize, binary_round;
    destruct (shl_align _ _ _) as [mz ez]; apply binary_round_aux_signed; lia.
Qed.


(** [x < 0] is false: [x] is zero, positive or NaN. *)
Definition not_below_zero (x : spec_float) : Prop := SFltb x (S754_zero false) = false.

Lemma SFadd_not_below_zero x y :
  not_below_zero x -> not_below_zero y -> not_below_zero (SF64add x y).
Proof.
  unfold not_below_zero, SF64add.
  destruct x as [sx | sx | | sx mx ex], y as [sy | sy | | sy my ey];
    try (destruct sx; try discriminate); try (destruct sy; try discriminate);
    intros Hx Hy; try reflexivity; try assumption.
  unfold SFadd. cbn [cond_Zopp].
  set (a := fst (shl_align mx ex (Z.min ex ey))).
  set (b := fst (shl_align my ey (Z.min ex ey))).
  change (Z.pos a + Z.pos b) with (Z.pos (a + b)).
  pose proof (binary_normalize_signed (Z.pos (a + b)) (Z.min ex ey)) as H.
  cbv beta iota in H.
  remember (binary_normalize prec emax (Z.pos (a + b)) (Z.min ex ey) false) as r eqn:Er.
  clear Er. destruct H; reflexivity.
Qed.



(** *** Whole numbers below [2^53] add up exactly *)

Lemma digits2_size p : digits2_pos p = Pos.size p.
Proof. induction p; simpl; congruence. Qed.

Lemma digits2_bounds p :
  2 ^ (Z.pos (digits2_pos p) - 1) <= Z.pos p < 2 ^ Z.pos (digits2_pos p).
Proof.
  rewrite digits2_size. split.
  - pose proof (Pos.size_le p) as H.
    assert (H' : 2 ^ Z.pos (Pos.size p) <= Z.pos p~0).
    { rewrite <- Pos2Z.inj_pow. apply Pos2Z.pos_le_pos. exact H. }
    replace (Z.pos (Pos.size p)) with (Z.succ (Z.pos (Pos.size p) - 1)) in H' by lia.
    rewrite Z.pow_succ_r in H' by lia. lia.
  - pose proof (Pos.size_gt p) as H.
    rewrite <- Pos2Z.inj_pow. apply Pos2Z.pos_lt_pos. exact H.
Qed.

Lemma digits2_unique p d :
  2 ^ (d - 1) <= Z.pos p < 2 ^ d -> Z.pos (digits2_pos p) = d.
Proof.
  intros [Hlo Hhi]. pose proof (digits2_bounds p) as [Hlo' Hhi'].
  assert (0 < d).
  { destruct (Z_lt_le_dec 0 d); [assumption |].
    assert (2 ^ d <= 2 ^ 0) by (apply Z.pow_le_mono_r; lia). simpl in *. lia. }
  destruct (Z.lt_trichotomy (Z.pos (digits2_pos p)) d) as [Hlt | [Heq | Hgt]];
    [| exact Heq |]; exfalso.
  - assert (2 ^ Z.pos (digits2_pos p) <= 2 ^ (d - 1)) by (apply Z.pow_le_mono_r; lia). lia.
  - assert (2 ^ d <= 2 ^ (Z.pos (digits2_pos p) - 1)) by (apply Z.pow_le_mono_r; lia). lia.
Qed.

Lemma digits2_shift r M K :
  0 <= K -> Z.pos M = Z.pos r * 2 ^ K ->
  Z.pos (digits2_pos M) = Z.pos (digits2_pos r) + K.
Proof.
  intros HK HM. apply digits2_unique. rewrite HM.
  pose proof (digits2_bounds r) as [Hlo Hhi].
  replace (Z.pos (digits2_pos r) + K - 1) with (Z.pos (digits2_pos r) - 1 + K) by lia.
  rewrite !Z.pow_add_r by lia.
  assert (0 < 2 ^ K) by (apply Z.pow_pos_nonneg; lia).
  split; nia.
Qed.

Lemma iter_xO_pow p d : Z.pos (Pos.iter xO p d) = Z.pos p * 2 ^ Z.pos d.
Proof.
  rewrite (Pos.iter_swap_gen _ _ Z.pos xO (Z.mul 2)) by reflexivity.
  change (Pos.iter (Z.mul 2) (Z.pos p) d) with (Z.shiftl (Z.pos p) (Z.pos d)).
  apply Z.shiftl_mul_pow2. lia.
Qed.

Lemma iter_pos_iter {A : Type} (f : A -> A) p x : SpecFloat.iter_pos f p x = Pos.iter f x p.
Proof.
  revert x. induction p as [p IH | p IH |]; intros x; simpl.
  - rewrite !IH. rewrite <- !Pos.iter_swap. reflexivity.
  - rewrite !IH. reflexivity.
  - reflexivity.
Qed.

(** A mantissa from which no non-zero bit has been shifted out. *)
Definition exact_record (m : Z) : shr_record :=
  {| shr_m := m; shr_r := false; shr_s := false |}.

Lemma shr_exact n r M :
  Z.pos M = Z.pos r * 2 ^ Z.pos n ->
  SpecFloat.iter_pos shr_1 n (exact_record (Z.pos M)) = exact_record (Z.pos r).
Proof.
  rewrite iter_pos_iter. revert r M.
  induction n as [| n IH] using Pos.peano_ind; intros r M HM.
  - simpl. assert (M = r~0)%positive by lia. subst M. reflexivity.
  - rewrite Pos.iter_succ. rewrite (IH (r~0)%positive M).
    + reflexivity.
    + rewrite HM, Pos2Z.inj_succ, Z.pow_succ_r by lia. lia.
Qed.

(** The bits missing from [r] to fill the 53 bits of a mantissa. *)
Definition slack (r : positive) : Z := prec - Z.pos (digits2_pos r).

(** The binary64 datum of value [(-1)^s * r], for [r] of at most 53 bits. *)
Definition canon (s : bool) (r : positive) : spec_float :=
  S754_finite s (Z.to_pos (Z.pos r * 2 ^ slack r)) (- slack r).

(** The binary64 datum nearest to the whole number [z]. *)
Definition BN (z : Z) : spec_float := binary_normalize prec emax z 0 false.

Lemma fexp_full e : -1074 <= e -> fexp prec emax (prec + e) = e.
Proof. intros H. unfold fexp, SpecFloat.emin, prec, emax. lia. Qed.

Lemma shr_fexp_canonical m e :
  Z.pos (digits2_pos m) = prec -> -1074 <= e ->
  shr_fexp prec emax (Z.pos m) e loc_Exact = (exact_record (Z.pos m), e).
Proof.
  intros Hd He. unfold shr_fexp. simpl Zdigits2.
  rewrite Hd, fexp_full, Z.sub_diag by lia. reflexivity.
Qed.

Lemma aux_finish s m e :
  Z.pos (digits2_pos m) = prec -> -1074 <= e <= emax - prec ->
  (let '(mrs'', e'') :=
     shr_fexp prec emax
       (round_nearest_even (shr_m (exact_record (Z.pos m)))
          (loc_of_shr_record (exact_record (Z.pos m)))) e loc_Exact in
   match shr_m mrs'' with
   | 0 => S754_zero s
   | Z.pos m0 => if e'' <=? emax - prec then S754_finite s m0 e'' else S754_infinity s
   | Z.neg _ => S754_nan
   end) = S754_finite s m e.
Proof.
  intros Hd He.
  change (round_nearest_even _ _) with (Z.pos m).
  rewrite shr_fexp_canonical by (try assumption; lia).
  cbv beta iota zeta. change (shr_m (exact_record (Z.pos m))) with (Z.pos m).
  cbv beta iota.
  replace (e <=? emax - prec) with true by (symmetry; apply Z.leb_le; lia).
  reflexivity.
Qed.

Lemma aux_canonical s m e :
  Z.pos (digits2_pos m) = prec -> -1074 <= e <= emax - prec ->
  binary_round_aux prec emax s (Z.pos m) e loc_Exact = S754_finite s m e.
Proof.
  intros Hd He. unfold binary_round_aux.
  rewrite shr_fexp_canonical by (try assumption; lia).
  apply aux_finish; assumption.
Qed.

Lemma aux_shift s M e n r :
  Z.pos M = Z.pos r * 2 ^ Z.pos n ->
  Z.pos (digits2_pos r) = prec ->
  -1074 <= e + Z.pos n <= emax - prec ->
  binary_round_aux prec emax s (Z.pos M) e loc_Exact = S754_finite s r (e + Z.pos n).
Proof.
  intros HM Hd He.
  assert (HdM : Z.pos (digits2_pos M) = prec + Z.pos n).
  { rewrite <- Hd. apply digits2_shift; [lia | exact HM]. }
  assert (Hshr : shr_fexp prec emax (Z.pos M) e loc_Exact =
                 (exact_record (Z.pos r), e + Z.pos n)).
  { unfold shr_fexp. simpl Zdigits2. rewrite HdM.
    replace (prec + Z.pos n + e) with (prec + (e + Z.pos n)) by lia.
    rewrite fexp_full by lia.
    replace (e + Z.pos n - e) with (Z.pos n) by lia.
    unfold shr. change (shr_record_of_loc (Z.pos M) loc_Exact) with (exact_record (Z.pos M)).
    rewrite (shr_exact n r M HM). reflexivity. }
  unfold binary_round_aux. rewrite Hshr.
  apply aux_finish; assumption.
Qed.

Lemma slack_range r : Z.pos (digits2_pos r) <= prec -> 0 <= slack r <= 52.
Proof. unfold slack, prec. lia. Qed.

Lemma canon_digits r :
  Z.pos (digits2_pos r) <= prec ->
  Z.pos (digits2_pos (Z.to_pos (Z.pos r * 2 ^ slack r))) = prec.
Proof.
  intros H. pose proof (slack_range r H).
  assert (0 < 2 ^ slack r) by (apply Z.pow_pos_nonneg; lia).
  rewrite (digits2_shift r _ (slack r)); [unfold slack; lia | lia |].
  rewrite Z2Pos.id by nia. reflexivity.
Qed.

Lemma binary_round_canon s r M K :
  0 <= K -> Z.pos M = Z.pos r * 2 ^ K -> Z.pos (digits2_pos r) <= prec ->
  binary_round prec emax s M (- K) = canon s r.
Proof.
  intros HK HM Hr. pose proof (slack_range r Hr) as Hs.
  assert (Hpow : 0 < 2 ^ slack r) by (apply Z.pow_pos_nonneg; lia).
  assert (Hcan : Z.pos (Z.to_pos (Z.pos r * 2 ^ slack r)) = Z.pos r * 2 ^ slack r).
  { apply Z2Pos.id. nia. }
  unfold binary_round, canon.
  rewrite (digits2_shift r M K HK HM).
  replace (Z.pos (digits2_pos r) + K + - K) with (prec + - slack r) by (unfold slack; lia).
  rewrite fexp_full by lia.
  unfold shl_align.
  destruct (- slack r - - K) as [| n | n] eqn:En.
  - assert (K = slack r) by lia. subst K.
    replace M with (Z.to_pos (Z.pos r * 2 ^ slack r)) by lia.
    apply aux_canonical; [apply canon_digits, Hr | unfold emax, prec; lia].
  - replace (- slack r) with (- K + Z.pos n) by lia.
    apply aux_shift; [| apply canon_digits, Hr | unfold emax, prec; lia].
    rewrite Hcan, HM. replace K with (slack r + Z.pos n) by lia.
    rewrite Z.pow_add_r by lia. lia.
  - replace (Pos.iter xO M n) with (Z.to_pos (Z.pos r * 2 ^ slack r)).
    + apply aux_canonical; [apply canon_digits, Hr | unfold emax, prec; lia].
    + apply Pos2Z.inj. rewrite Hcan, iter_xO_pow, HM.
      replace (slack r) with (K + Z.pos n) by lia.
      rewrite Z.pow_add_r by lia. lia.
Qed.

Lemma digits_small (r : positive) : Z.pos r < 2 ^ 53 -> Z.pos (digits2_pos r) <= prec.
Proof.
  intros H. pose proof (digits2_bounds r) as [Hlo _].
  destruct (Z_le_gt_dec (Z.pos (digits2_pos r)) prec) as [Hle | Hgt]; [exact Hle |].
  exfalso. assert (2 ^ 53 <= 2 ^ (Z.pos (digits2_pos r) - 1)).
  { apply Z.pow_le_mono_r; unfold prec in *; lia. }
  lia.
Qed.

Lemma BN_pos r : Z.pos r < 2 ^ 53 -> BN (Z.pos r) = canon false r.
Proof.
  intros H. unfold BN, binary_normalize.
  apply (binary_round_canon false r r 0); [lia | | apply digits_small, H].
  rewrite Z.pow_0_r. lia.
Qed.

Lemma BN_neg r : Z.pos r < 2 ^ 53 -> BN (Z.neg r) = canon true r.
Proof.
  intros H. unfold BN, binary_normalize.
  apply (binary_round_canon true r r 0); [lia | | apply digits_small, H].
  rewrite Z.pow_0_r. lia.
Qed.

Lemma shl_align_value m e e' :
  e' <= e -> shl_align m e e' = (Z.to_pos (Z.pos m * 2 ^ (e - e')), e').
Proof.
  intros H. unfold shl_align. destruct (e' - e) as [| n | n] eqn:En; try lia.
  - replace (e - e') with 0 by lia. rewrite Z.pow_0_r, Z.mul_1_r. simpl.
    f_equal. lia.
  - f_equal. apply Pos2Z.inj. rewrite iter_xO_pow.
    replace (e - e') with (Z.pos n) by lia.
    assert (0 < 2 ^ Z.pos n) by (apply Z.pow_pos_nonneg; lia).
    rewrite Z2Pos.id by nia. reflexivity.
Qed.

(** The whole number of sign [s] and magnitude [r]. *)
Definition signed (s : bool) (r : positive) : Z := cond_Zopp s (Z.pos r).

Lemma BN_signed s r : Z.pos r < 2 ^ 53 -> BN (signed s r) = canon s r.
Proof. destruct s; [apply BN_neg | apply BN_pos]. Qed.

Lemma canon_add sx p sy q :
  Z.pos p < 2 ^ 53 -> Z.pos q < 2 ^ 53 -> Z.abs (signed sx p + signed sy q) < 2 ^ 53 ->
  SFadd prec emax (canon sx p) (canon sy q) = BN (signed sx p + signed sy q).
Proof.
  intros Hp Hq Hsum.
  pose proof (slack_range p (digits_small p Hp)) as Hsp.
  pose proof (slack_range q (digits_small q Hq)) as Hsq.
  unfold canon, SFadd.
  set (K := Z.max (slack p) (slack q)).
  replace (Z.min (- slack p) (- slack q)) with (- K) by (unfold K; lia).
  rewrite !shl_align_value by (unfold K; lia). cbn [fst].
  assert (Hpp : 0 < 2 ^ slack p) by (apply Z.pow_pos_nonneg; lia).
  assert (Hpq : 0 < 2 ^ slack q) by (apply Z.pow_pos_nonneg; lia).
  assert (HpK : 0 < 2 ^ K) by (apply Z.pow_pos_nonneg; unfold K; lia).
  assert (Ha : forall r, 0 <= slack r <= K -> 
            Z.pos (Z.to_pos (Z.pos (Z.to_pos (Z.pos r * 2 ^ slack r)) * 2 ^ (- slack r - - K)))
            = Z.pos r * 2 ^ K).
  { intros r Hr. assert (0 < 2 ^ slack r) by (apply Z.pow_pos_nonneg; lia).
    assert (0 < 2 ^ (- slack r - - K)) by (apply Z.pow_pos_nonneg; lia).
    rewrite (Z2Pos.id (Z.pos r * 2 ^ slack r)) by nia.
    rewrite Z2Pos.id by nia.
    rewrite <- Z.mul_assoc, <- Z.pow_add_r by lia. f_equal. f_equal. lia. }
  assert (Hval : cond_Zopp sx (Z.pos (Z.to_pos (Z.pos (Z.to_pos (Z.pos p * 2 ^ slack p)) * 2 ^ (- slack p - - K)))) +
                 cond_Zopp sy (Z.pos (Z.to_pos (Z.pos (Z.to_pos (Z.pos q * 2 ^ slack q)) * 2 ^ (- slack q - - K))))
                 = (signed sx p + signed sy q) * 2 ^ K).
  { rewrite !Ha by (unfold K; lia). unfold signed. generalize (2 ^ K). intros t. destruct sx, sy; unfold cond_Zopp; ring. }
  rewrite Hval. clear Hval Ha.
  set (z := signed sx p + signed sy q) in *. clearbody z.
  destruct z as [| r | r].
  - rewrite Z.mul_0_l. reflexivity.
  - unfold binary_normalize at 1.
    destruct (Z.pos r * 2 ^ K) as [| M | M] eqn:EM; try lia.
    rewrite (binary_round_canon false r M K); [symmetry; apply BN_pos; lia | unfold K; lia | lia |].
    apply digits_small. lia.
  - unfold binary_normalize at 1.
    destruct (Z.neg r * 2 ^ K) as [| M | M] eqn:EM; try lia.
    rewrite (binary_round_canon true r M K); [symmetry; apply BN_neg; lia | unfold K; lia | lia |].
    apply digits_small. lia.
Qed.

Lemma SFadd_zero_l s r : SFadd prec emax (S754_zero false) (canon s r) = canon s r.
Proof. reflexivity. Qed.

Lemma SFadd_zero_r s r : SFadd prec emax (canon s r) (S754_zero false) = canon s r.
Proof. reflexivity. Qed.

Lemma BN_add x y :
  Z.abs x < 2 ^ 53 -> Z.abs y < 2 ^ 53 -> Z.abs (x + y) < 2 ^ 53 ->
  SFadd prec emax (BN x) (BN y) = BN (x + y).
Proof.
  intros Hx Hy Hxy.
  assert (Hsplit : forall z, Z.abs z < 2 ^ 53 ->
            z = 0 \/ exists s r, z = signed s r /\ Z.pos r < 2 ^ 53).
  { intros [| r | r] Hz; [left; reflexivity | right; exists false, r | right; exists true, r];
      split; try reflexivity; lia. }
  destruct (Hsplit x Hx) as [-> | (sx & p & -> & Hp)];
    destruct (Hsplit y Hy) as [-> | (sy & q & -> & Hq)].
  - reflexivity.
  - rewrite Z.add_0_l, BN_signed by assumption. apply SFadd_zero_l.
  - rewrite Z.add_0_r, BN_signed by assumption. apply SFadd_zero_r.
  - rewrite (BN_signed sx p), (BN_signed sy q) by assumption.
    apply canon_add; assumption.
Qed.

(** *** The same facts on primitive floats *)

Lemma Prim2SF_zero : Prim2SF 0 = S754_zero false.
Proof. reflexivity. Qed.

Lemma add_not_below_zero (x y : float) :
  (x <? 0)%float = false -> (y <? 0)%float = false -> (x + y <? 0)%float = false.
Proof.
  rewrite !FloatAxioms.ltb_spec, FloatAxioms.add_spec, Prim2SF_zero. apply SFadd_not_below_zero.
Qed.

Definition SF_finite (x : spec_float) : bool :=
  match x with
  | S754_zero _ | S754_finite _ _ _ => true
  | _ => false
  end.

Definition SF_nonneg (x : spec_float) : Prop := SFleb (S754_zero false) x = true.

Lemma SF_nonneg_not_below_zero x : SF_nonneg x -> not_below_zero x.
Proof.
  unfold SF_nonneg, not_below_zero.
  destruct x as [s | s | | s m e]; try destruct s; try discriminate; reflexivity.
Qed.

Lemma signed_like_nonneg s r :
  signed_like s r -> not_below_zero r -> SF_nonneg r.
Proof.
  intros H Hr. destruct H; destruct s; try discriminate Hr; reflexivity.
Qed.

Lemma SFadd_nonneg_finite x y :
  SF_nonneg x -> SF_finite y = true -> not_below_zero (SF64add x y) ->
  SF_nonneg (SF64add x y).
Proof.
  unfold SF64add.
  destruct x as [sx | sx | | sx mx ex], y as [sy | sy | | sy my ey];
    try discriminate; try (destruct sx; discriminate);
    intros Hx _ Hsum.
  - destruct sx, sy; reflexivity.
  - destruct sy; [discriminate Hsum | reflexivity].
  - exact Hx.
  - exact Hx.
  - exact Hx.
  - unfold SFadd in *.
    match goal with
    | |- context [binary_normalize _ _ ?m ?e false] =>
        pose proof (binary_normalize_signed m e) as H;
        remember (binary_normalize prec emax m e false) as r eqn:Er; clear Er;
        destruct m
    end.
    + rewrite H. reflexivity.
    + eapply signed_like_nonneg; eassumption.
    + eapply signed_like_nonneg; eassumption.
Qed.

Lemma is_finite_spec (x : float) : is_finite x = true -> SF_finite (Prim2SF x) = true.
Proof.
  unfold is_finite, is_nan, is_infinity. rewrite !FloatAxioms.eqb_spec, FloatAxioms.abs_spec.
  change (Prim2SF infinity) with (S754_infinity false).
  destruct (Prim2SF x) as [s | s | | s m e]; intros H; try reflexivity;
    [destruct s |]; discriminate H.
Qed.

Lemma add_nonneg_finite (b a : float) :
  (0 <=? b)%float = true -> is_finite a = true -> (b + a <? 0)%float = false ->
  (0 <=? b + a)%float = true.
Proof.
  rewrite !FloatAxioms.leb_spec, FloatAxioms.ltb_spec, FloatAxioms.add_spec, Prim2SF_zero. intros Hb Ha Hsum.
  apply SFadd_nonneg_finite; [exact Hb | apply is_finite_spec, Ha | exact Hsum].
Qed.

Lemma nonneg_not_below_zero (b : float) : (0 <=? b)%float = true -> (b <? 0)%float = false.
Proof.
  rewrite FloatAxioms.leb_spec, FloatAxioms.ltb_spec, Prim2SF_zero. apply SF_nonneg_not_below_zero.
Qed.


Lemma float_of_Z_literals :
  float_of_Z 1000 = 1000%float /\ float_of_Z (-200) = (-200)%float /\
  float_of_Z 9007199254740991 = 9007199254740991%float.
Proof. vm_compute. repeat split; reflexivity. Qed.

Lemma Prim2SF_float_of_Z z : Z.abs z < 2 ^ 53 -> Prim2SF (float_of_Z z) = BN z.
Proof.
  intros Hz.
  assert (Hp : forall p, Z.pos p < 2 ^ 53 ->
               Prim2SF (of_uint63 (Uint63.of_Z (Z.pos p))) = BN (Z.pos p)).
  { intros p Hp. rewrite FloatAxioms.of_uint63_spec. unfold BN. f_equal.
    rewrite Uint63.of_Z_spec. apply Z.mod_small.
    change Uint63.wB with (2 ^ 63). lia. }
  destruct z as [| p | p]; unfold float_of_Z.
  - reflexivity.
  - apply Hp. lia.
  - rewrite FloatAxioms.opp_spec, Hp by lia. rewrite BN_pos, BN_neg by lia. reflexivity.
Qed.

Lemma float_of_Z_add x y :
  Z.abs x < 2 ^ 53 -> Z.abs y < 2 ^ 53 -> Z.abs (x + y) < 2 ^ 53 ->
  (float_of_Z x + float_of_Z y)%float = float_of_Z (x + y).
Proof.
  intros Hx Hy Hxy. apply Prim2SF_inj.
  rewrite FloatAxioms.add_spec, !Prim2SF_float_of_Z by assumption.
  apply BN_add; assumption.
Qed.

(** * Properties of the programs *)

(** ** The lock store *)

Lemma SetNX_live key value ttl w :
  Mock.live key w -> Mock.SetNX key value ttl w = ((false, None), w).
Proof.
  intros [v Hv]. unfold Mock.SetNX. rewrite Hv. reflexivity.
Qed.

Lemma Mock_Get_live k tok w :
  data (rdb w) !! k = Some tok -> Mock.Get k w = ((tok, None), w).
Proof. intros H. unfold Mock.Get. rewrite H. reflexivity. Qed.

Lemma Mock_Get_absent k w :
  data (rdb w) !! k = None -> Mock.Get k w = (("", Some key_not_found), w).
Proof. intros H. unfold Mock.Get. rewrite H. reflexivity. Qed.

Lemma Mock_Del_live k tok w :
  data (rdb w) !! k = Some tok -> Mock.Del k w = ((1, None), without k w).
Proof. intros H. unfold Mock.Del. rewrite H. reflexivity. Qed.

(** C1: [SetNX] stores the value and answers [true] exactly when the key has
    no live record; on a live record it answers [false] and changes nothing.
    Hence two calls for one key, the second made in any later state in which
    the record written by the first is still live, never both answer
    [true]. *)
Theorem C1_SetNX_create_if_absent :
  forall (key value : string) (ttl : Z) (w : World),
    (fst (fst (Mock.SetNX key value ttl w)) = true <-> ~ Mock.live key w) /\
    (~ Mock.live key w ->
       Mock.SetNX key value ttl w =
       ((true, None),
        {| rdb := {| data := <[key := value]> (data (rdb w)) |};
           sleepers := sleepers w ++
                       [{| wake := now w + Z.max 0 ttl; rkey := key; rvalue := value |}];
           now := now w |}) /\
       data (rdb (snd (Mock.SetNX key value ttl w))) !! key = Some value) /\
    (Mock.live key w -> Mock.SetNX key value ttl w = ((false, None), w)) /\
    (forall (value' : string) (ttl' : Z) (w' : World),
       fst (fst (Mock.SetNX key value ttl w)) = true ->
       Mock.live key w' ->
       fst (fst (Mock.SetNX key value' ttl' w')) = false /\
       snd (Mock.SetNX key value' ttl' w') = w') /\
    (forall (value' : string) (ttl' : Z),
       fst (fst (Mock.SetNX key value ttl w)) &&
       fst (fst (Mock.SetNX key value' ttl' (snd (Mock.SetNX key value ttl w)))) = false).
Proof.
  intros key value ttl w.
  assert (Hdec : Mock.live key w \/ data (rdb w) !! key = None).
  { unfold Mock.live. destruct (data (rdb w) !! key) eqn:E; [left; eauto | right; reflexivity]. }
  split; [split | split; [| split; [| split]]].
  - intros Ht Hl. rewrite (SetNX_live _ _ _ _ Hl) in Ht. discriminate.
  - intros Hn. destruct Hdec as [Hl | Hk]; [contradiction |].
    unfold Mock.SetNX. rewrite Hk. reflexivity.
  - intros Hn. destruct Hdec as [Hl | Hk]; [contradiction |].
    unfold Mock.SetNX. rewrite Hk. simpl. split; [reflexivity | apply lookup_insert_eq].
  - apply SetNX_live.
  - intros value' ttl' w' _ Hl'. rewrite (SetNX_live _ _ _ _ Hl'). split; reflexivity.
  - intros value' ttl'. destruct Hdec as [Hl | Hk].
    + rewrite (SetNX_live _ _ _ _ Hl). reflexivity.
    + assert (Hl' : Mock.live key (snd (Mock.SetNX key value ttl w))).
      { unfold Mock.live, Mock.SetNX. rewrite Hk. simpl.
        rewrite lookup_insert_eq. eauto. }
      rewrite (SetNX_live _ value' ttl' _ Hl'). simpl. apply andb_false_r.
Qed.

Lemma C1_witness :
  let w := NewWorld 0 in
  let w1 := snd (Mock.SetNX "test-key" "test-value" (1 * Second) w) in
  fst (fst (Mock.SetNX "test-key" "test-value" (1 * Second) w)) = true /\
  Mock.SetNX "test-key" "test-value" (1 * Second) w1 = ((false, None), w1).
Proof.
  intros w w1. split.
  - apply (proj1 (C1_SetNX_create_if_absent "test-key" "test-value" (1 * Second) w)).
    intros [v Hv]. discriminate Hv.
  - apply (proj1 (proj2 (proj2
             (C1_SetNX_create_if_absent "test-key" "test-value" (1 * Second) w1)))).
    exists "test-value". reflexivity.
Defined.

(** ** Expiry *)

Section Expiry.
Variables (k0 v0 : string) (wake0 : Z).

(** Either the record is gone, or it is the one written by the acquisition
    under study, whose reaper is still asleep. *)
Definition pending (w : World) : Prop :=
  data (rdb w) !! k0 = None \/
  (data (rdb w) !! k0 = Some v0 /\
   now w <= wake0 /\
   exists r, In r (sleepers w) /\ rkey r = k0 /\ rvalue r = v0 /\ wake r <= wake0).

Definition gone_or_mine (m : MockRedis) : Prop :=
  data m !! k0 = None \/ data m !! k0 = Some v0.

Lemma reap_gone r m : data m !! k0 = None -> data (reap r m) !! k0 = None.
Proof.
  intros H. unfold reap. destruct (String.eqb _ _); [| exact H].
  simpl. destruct (decide (rkey r = k0)) as [-> | Hne].
  - apply lookup_delete_eq.
  - rewrite lookup_delete_ne by exact Hne. exact H.
Qed.

Lemma reap_gone_or_mine r m : gone_or_mine m -> gone_or_mine (reap r m).
Proof.
  intros [H | H]; [left; apply reap_gone, H |].
  unfold reap. destruct (String.eqb _ _); [| right; exact H].
  unfold gone_or_mine. simpl. destruct (decide (rkey r = k0)) as [-> | Hne].
  - left. apply lookup_delete_eq.
  - right. rewrite lookup_delete_ne by exact Hne. exact H.
Qed.

Lemma reap_mine r m :
  rkey r = k0 -> rvalue r = v0 -> gone_or_mine m -> data (reap r m) !! k0 = None.
Proof.
  intros Hk Hv [H | H]; [apply reap_gone, H |].
  unfold reap. rewrite Hk, H, Hv. simpl. rewrite String.eqb_refl. simpl.
  apply lookup_delete_eq.
Qed.

Lemma reap_all_gone rs m :
  data m !! k0 = None -> data (fold_left (fun m r => reap r m) rs m) !! k0 = None.
Proof.
  revert m. induction rs as [| r rs IH]; intros m H; simpl; [exact H |].
  apply IH, reap_gone, H.
Qed.

Lemma reap_all_gone_or_mine rs m :
  gone_or_mine m -> gone_or_mine (fold_left (fun m r => reap r m) rs m).
Proof.
  revert m. induction rs as [| r rs IH]; intros m H; simpl; [exact H |].
  apply IH, reap_gone_or_mine, H.
Qed.

Lemma reap_all_mine rs m r :
  In r rs -> rkey r = k0 -> rvalue r = v0 -> gone_or_mine m ->
  data (fold_left (fun m r => reap r m) rs m) !! k0 = None.
Proof.
  revert m. induction rs as [| r' rs IH]; intros m Hin Hk Hv Hm; [destruct Hin |].
  simpl. destruct Hin as [-> | Hin].
  - apply reap_all_gone, reap_mine; assumption.
  - apply IH; [assumption .. |]. apply reap_gone_or_mine, Hm.
Qed.

Lemma pending_Sleep d w : pending w -> pending (Mock.Sleep d w).
Proof.
  intros [Hgone | (Hmine & Hnow & r & Hin & Hk & Hv & Hw)].
  - left. simpl. apply reap_all_gone, Hgone.
  - destruct (Mock.due (now w + Z.max 0 d) r) eqn:Hdue.
    + left. simpl. apply (reap_all_mine _ _ r); try assumption.
      * apply filter_In. split; assumption.
      * right. exact Hmine.
    + assert (Hm : gone_or_mine
                (fold_left (fun m r => reap r m)
                   (List.filter (Mock.due (now w + Z.max 0 d)) (sleepers w)) (rdb w))).
      { apply reap_all_gone_or_mine. right. exact Hmine. }
      destruct Hm as [Hm | Hm]; [left; exact Hm |].
      right. simpl. split; [exact Hm |]. unfold Mock.due in Hdue.
      apply Z.leb_gt in Hdue. split; [lia |].
      exists r. repeat split; try assumption.
      apply filter_In. split; [assumption |].
      unfold Mock.due. apply negb_true_iff, Z.leb_gt. exact Hdue.
Qed.

Lemma pending_step o w : wins k0 o w = false -> pending w -> pending (step o w).
Proof.
  intros Hwin Hp. destruct o as [k v ttl | k | k | d]; simpl.
  - simpl in Hwin. unfold Mock.SetNX in *.
    destruct (data (rdb w) !! k) eqn:Ek; simpl in *; [exact Hp |].
    rewrite andb_true_r in Hwin. apply String.eqb_neq in Hwin.
    destruct Hp as [Hgone | (Hmine & Hnow & r & Hin & Hr)].
    + left. simpl. rewrite lookup_insert_ne by exact Hwin. exact Hgone.
    + right. simpl. rewrite lookup_insert_ne by exact Hwin.
      split; [exact Hmine |]. split; [exact Hnow |].
      exists r. split; [| exact Hr]. apply in_or_app. left. exact Hin.
  - unfold Mock.Get. destruct (data (rdb w) !! k); exact Hp.
  - unfold Mock.Del. destruct (data (rdb w) !! k) eqn:Ek; simpl; [| exact Hp].
    destruct (decide (k = k0)) as [-> | Hne].
    + left. simpl. apply lookup_delete_eq.
    + destruct Hp as [Hgone | (Hmine & Hrest)].
      * left. simpl. rewrite lookup_delete_ne by exact Hne. exact Hgone.
      * right. simpl. rewrite lookup_delete_ne by exact Hne. split; assumption.
  - apply pending_Sleep, Hp.
Qed.

Lemma pending_run ops w :
  reacquired k0 ops w = false -> pending w -> pending (run_ops ops w).
Proof.
  revert w. induction ops as [| o ops IH]; intros w Hq Hp; [exact Hp |].
  simpl in Hq. apply orb_false_iff in Hq. destruct Hq as [Hwin Hq].
  simpl. apply IH; [exact Hq |]. apply pending_step; assumption.
Qed.

End Expiry.

Lemma now_step o w :
  now (step o w) = now w + elapsed [o].
Proof.
  destruct o as [k v ttl | k | k | d]; simpl.
  - unfold Mock.SetNX. destruct (data (rdb w) !! k); simpl; lia.
  - unfold Mock.Get. destruct (data (rdb w) !! k); simpl; lia.
  - unfold Mock.Del. destruct (data (rdb w) !! k); simpl; lia.
  - lia.
Qed.

Lemma now_run ops w : now (run_ops ops w) = now w + elapsed ops.
Proof.
  revert w. induction ops as [| o ops IH]; intros w; simpl; [lia |].
  unfold run_ops in IH. rewrite IH, now_step. destruct o; simpl; lia.
Qed.

(** C8: when [SetNX] with TTL [ttl] has succeeded for a key and more than
    [ttl] has passed since, whatever else was done to the store in between
    short of acquiring that key again, [Get] finds no record and any new
    [SetNX] for the key succeeds, without any [Del] being needed. *)
Theorem C8_record_expires :
  forall (k v : string) (ttl : Z) (w : World) (ops : list store_op),
    0 <= ttl ->
    fst (fst (Mock.SetNX k v ttl w)) = true ->
    reacquired k ops (snd (Mock.SetNX k v ttl w)) = false ->
    ttl < elapsed ops ->
    let w' := run_ops ops (snd (Mock.SetNX k v ttl w)) in
    Mock.Get k w' = (("", Some key_not_found), w') /\
    (forall v' ttl', fst (fst (Mock.SetNX k v' ttl' w')) = true) /\
    (forall v' ttl',
       fst (MockMain.AcquireLock mock_client {| key := k; value := v' |} ttl' w') =
       (true, None)).
Proof.
  intros k v ttl w ops Httl Hok Hquiet Hlate w'.
  assert (Hgone : data (rdb w') !! k = None).
  { assert (Hp : pending k v (now w + ttl) w').
    { apply pending_run; [exact Hquiet |].
      unfold Mock.SetNX in *. destruct (data (rdb w) !! k) eqn:Ek; [discriminate Hok |].
      right. simpl. split; [apply lookup_insert_eq |]. split; [lia |].
      eexists. split; [apply in_or_app; right; left; reflexivity |].
      simpl. repeat split. lia. }
    destruct Hp as [Hgone | (_ & Hnow & _)]; [exact Hgone |].
    exfalso. unfold w' in Hnow. rewrite now_run in Hnow.
    assert (now (snd (Mock.SetNX k v ttl w)) = now w).
    { unfold Mock.SetNX. destruct (data (rdb w) !! k); reflexivity. }
    lia. }
  split; [apply Mock_Get_absent, Hgone |].
  split; intros v' ttl'.
  - unfold Mock.SetNX. rewrite Hgone. reflexivity.
  - unfold MockMain.AcquireLock. simpl. unfold Mock.SetNX. rewrite Hgone. reflexivity.
Qed.

Lemma C8_witness :
  let w := NewWorld 0 in
  let ops := [OpGet "test-key"; OpSetNX "test-key" "other" (1 * Second);
              OpSleep (150 * Millisecond)] in
  let w' := run_ops ops (snd (Mock.SetNX "test-key" "test-value" (100 * Millisecond) w)) in
  Mock.Get "test-key" w' = (("", Some key_not_found), w') /\
  (forall v' ttl', fst (fst (Mock.SetNX "test-key" v' ttl' w')) = true) /\
  (forall v' ttl',
     fst (MockMain.AcquireLock mock_client {| key := "test-key"; value := v' |} ttl' w') =
     (true, None)).
Proof.
  intros w ops.
  apply (C8_record_expires "test-key" "test-value" (100 * Millisecond) w ops).
  - unfold Millisecond. lia.
  - reflexivity.
  - vm_compute. reflexivity.
  - vm_compute. reflexivity.
Defined.

(** ** Releasing a lock *)

Lemma Mock_release_holder lock w :
  data (rdb w) !! key lock = Some (value lock) ->
  MockMain.ReleaseLock mock_client lock w = (None, without (key lock) w).
Proof.
  intros H. unfold MockMain.ReleaseLock. simpl.
  rewrite (Mock_Get_live _ _ _ H), String.eqb_refl, (Mock_Del_live _ _ _ H).
  reflexivity.
Qed.

Lemma Mock_release_other lock tok w :
  data (rdb w) !! key lock = Some tok -> tok <> value lock ->
  MockMain.ReleaseLock mock_client lock w = (None, w).
Proof.
  intros H Hne. unfold MockMain.ReleaseLock. simpl.
  rewrite (Mock_Get_live _ _ _ H).
  apply String.eqb_neq in Hne. rewrite Hne. reflexivity.
Qed.

Lemma Mock_release_absent lock w :
  data (rdb w) !! key lock = None ->
  MockMain.ReleaseLock mock_client lock w = (Some lock_not_found, w).
Proof.
  intros H. unfold MockMain.ReleaseLock. simpl.
  rewrite (Mock_Get_absent _ _ H). reflexivity.
Qed.

(** C2: on a live record, [ReleaseLock] removes the record when it holds the
    caller's token; when it holds another token the call returns [nil] and
    the store is left as it was, so the record of a newer holder survives the
    release of a former one.  This holds for the lock over [MockRedis] and,
    for the lock over any client, in terms of the calls made: [Del] is
    called exactly when [Get] returned the caller's token. *)
Theorem C2_release_only_own_token :
  forall (lock : RedisLock) (w : World) (tok : string),
    data (rdb w) !! key lock = Some tok ->
    (tok = value lock ->
       MockMain.ReleaseLock mock_client lock w = (None, without (key lock) w) /\
       RedisMain.ReleaseLock mock_client lock w = (None, without (key lock) w) /\
       data (rdb (without (key lock) w)) !! key lock = None) /\
    (tok <> value lock ->
       MockMain.ReleaseLock mock_client lock w = (None, w) /\
       RedisMain.ReleaseLock mock_client lock w = (None, w)) /\
    (forall (W : Type) (client : RedisClient W) (w0 w1 : W) (val : string),
       Get client (key lock) w0 = ((val, None), w1) ->
       (val <> value lock ->
          MockMain.ReleaseLock client lock w0 = (None, w1) /\
          RedisMain.ReleaseLock client lock w0 = (None, w1)) /\
       (val = value lock ->
          MockMain.ReleaseLock client lock w0 =
            (snd (fst (Del client (key lock) w1)), snd (Del client (key lock) w1)) /\
          RedisMain.ReleaseLock client lock w0 =
            (snd (fst (Del client (key lock) w1)), snd (Del client (key lock) w1)))).
Proof.
  intros lock w tok Hlive. split; [| split].
  - intros ->. split; [| split].
    + apply Mock_release_holder, Hlive.
    + unfold RedisMain.ReleaseLock. simpl.
      rewrite (Mock_Get_live _ _ _ Hlive), String.eqb_refl, (Mock_Del_live _ _ _ Hlive).
      reflexivity.
    + simpl. apply lookup_delete_eq.
  - intros Hne. split.
    + eapply Mock_release_other; eauto.
    + unfold RedisMain.ReleaseLock. simpl. rewrite (Mock_Get_live _ _ _ Hlive).
      apply String.eqb_neq in Hne. rewrite Hne. reflexivity.
  - intros W client w0 w1 val HGet. split.
    + intros Hne. apply String.eqb_neq in Hne.
      unfold MockMain.ReleaseLock, RedisMain.ReleaseLock. rewrite HGet, Hne.
      split; reflexivity.
    + intros ->. unfold MockMain.ReleaseLock, RedisMain.ReleaseLock.
      rewrite HGet, String.eqb_refl.
      destruct (Del client (key lock) w1) as [[n [e |]] w2]; split; reflexivity.
Qed.

Lemma C2_witness :
  let lock := {| key := "account:11111:lock"; value := "unique-identifier-7" |} in
  let w := snd (Mock.SetNX "account:11111:lock" "unique-identifier-9" (5 * Second) (NewWorld 9)) in
  data (rdb w) !! key lock = Some "unique-identifier-9" /\
  MockMain.ReleaseLock mock_client lock w = (None, w) /\
  RedisMain.ReleaseLock mock_client lock w = (None, w).
Proof.
  intros lock w.
  assert (H : data (rdb w) !! key lock = Some "unique-identifier-9") by reflexivity.
  split; [exact H |].
  apply (proj1 (proj2 (C2_release_only_own_token lock w _ H))).
  intros E. discriminate E.
Defined.

(** C6: over [MockRedis], [ReleaseLock] fails with "lock not found" exactly
    when the key has no live record, and with no other error; so after the
    holder's release has removed the record, a second release fails with
    "lock not found".  Over a client that can fail, the lock of
    [distributed/redis/main.go] reports "lock not found" for [redis.Nil]
    only: every other error of [Get], and every error of [Del], is returned
    as the client gave it. *)
Theorem C6_release_lock_not_found :
  forall (lock : RedisLock) (w : World),
    (fst (MockMain.ReleaseLock mock_client lock w) = Some lock_not_found <->
       ~ Mock.live (key lock) w) /\
    (forall e, fst (MockMain.ReleaseLock mock_client lock w) = Some e ->
       e = lock_not_found) /\
    (data (rdb w) !! key lock = Some (value lock) ->
       fst (MockMain.ReleaseLock mock_client lock w) = None /\
       fst (MockMain.ReleaseLock mock_client lock
              (snd (MockMain.ReleaseLock mock_client lock w))) = Some lock_not_found) /\
    (~ Mock.live (key lock) w ->
       MockMain.ReleaseLock mock_client lock w = (Some lock_not_found, w)) /\
    (forall (W : Type) (client : RedisClient W) (w0 : W),
       (snd (fst (Get client (key lock) w0)) = Some redis_Nil ->
          fst (RedisMain.ReleaseLock client lock w0) = Some lock_not_found) /\
       (forall e, snd (fst (Get client (key lock) w0)) = Some e -> e <> redis_Nil ->
          RedisMain.ReleaseLock client lock w0 = (Some e, snd (Get client (key lock) w0))) /\
       (forall e, snd (fst (Get client (key lock) w0)) = None ->
          fst (fst (Get client (key lock) w0)) = value lock ->
          snd (fst (Del client (key lock) (snd (Get client (key lock) w0)))) = Some e ->
          fst (RedisMain.ReleaseLock client lock w0) = Some e)).
Proof.
  intros lock w.
  assert (Hcases : (exists tok, data (rdb w) !! key lock = Some tok) \/
                   data (rdb w) !! key lock = None).
  { destruct (data (rdb w) !! key lock) eqn:E; eauto. }
  assert (Hnone : ~ Mock.live (key lock) w -> data (rdb w) !! key lock = None).
  { intros Hn. destruct Hcases as [[tok Ht] | Hk]; [| exact Hk].
    exfalso. apply Hn. exists tok. exact Ht. }
  assert (Hok : forall tok, data (rdb w) !! key lock = Some tok ->
                fst (MockMain.ReleaseLock mock_client lock w) = None).
  { intros tok Ht. destruct (String.eqb_spec tok (value lock)) as [-> | Hne].
    - rewrite (Mock_release_holder _ _ Ht). reflexivity.
    - rewrite (Mock_release_other _ _ _ Ht Hne). reflexivity. }
  split; [| split; [| split; [| split]]].
  - split.
    + intros Hr [tok Ht]. rewrite (Hok _ Ht) in Hr. discriminate.
    + intros Hn. rewrite (Mock_release_absent _ _ (Hnone Hn)). reflexivity.
  - intros e He. destruct Hcases as [[tok Ht] | Hk].
    + rewrite (Hok _ Ht) in He. discriminate.
    + rewrite (Mock_release_absent _ _ Hk) in He. simpl in He. congruence.
  - intros Hheld. rewrite (Mock_release_holder _ _ Hheld). simpl. split; [reflexivity |].
    rewrite Mock_release_absent; [reflexivity |]. simpl. apply lookup_delete_eq.
  - intros Hn. apply Mock_release_absent, Hnone, Hn.
  - intros W client w0. unfold RedisMain.ReleaseLock.
    destruct (Get client (key lock) w0) as [[val err] w1]. simpl.
    split; [| split].
    + intros ->. reflexivity.
    + intros e -> Hne. destruct e; [contradiction | reflexivity].
    + intros e -> -> HDel. rewrite String.eqb_refl.
      destruct (Del client (key lock) w1) as [[n err'] w2]. simpl in HDel.
      rewrite HDel. reflexivity.
Qed.

Lemma C6_witness :
  let lock := {| key := "test-key"; value := "test-value" |} in
  let w := snd (MockMain.AcquireLock mock_client lock (1 * Second) (NewWorld 0)) in
  fst (MockMain.ReleaseLock mock_client lock w) = None /\
  fst (MockMain.ReleaseLock mock_client lock
         (snd (MockMain.ReleaseLock mock_client lock w))) = Some lock_not_found.
Proof.
  intros lock w.
  apply (proj1 (proj2 (proj2 (C6_release_lock_not_found lock w)))).
  reflexivity.
Defined.

(** ** The critical section *)

Lemma update_balance_rejects account amount :
  (amount <? 0)%float = true -> (Balance account + amount <? 0)%float = true ->
  update_balance account amount = (account, InsufficientFunds).
Proof. intros H1 H2. unfold update_balance. rewrite H1, H2. reflexivity. Qed.

Lemma update_balance_applies account amount :
  ~ ((amount <? 0)%float = true /\ (Balance account + amount <? 0)%float = true) ->
  update_balance account amount =
  ({| AccountNumber := AccountNumber account;
      Balance := (Balance account + amount)%float |}, Processed).
Proof.
  intros H. unfold update_balance.
  destruct (amount <? 0)%float; [| reflexivity].
  destruct (Balance account + amount <? 0)%float; [| reflexivity].
  exfalso. apply H. split; reflexivity.
Qed.

Lemma MockMain_holds_or_leaves {W : Type} (client : RedisClient W) (time : Clock W)
    account transaction w :
  let r := MockMain.ProcessTransaction client time account transaction w in
  (account_after r = account /\
   (reported r = LockAcquisitionFailed \/ exists e, reported r = AcquireError e)) \/
  (account_after r, reported r) = update_balance account (Amount transaction).
Proof.
  unfold MockMain.ProcessTransaction.
  destruct (MockMain.retry_loop _ _ _ _ _ _) as [[exit w1] tr].
  destruct (update_balance account (Amount transaction)) as [account' out].
  destruct (MockMain.ReleaseLock client _ w1) as [err w2].
  destruct exit; simpl; eauto.
Qed.

Lemma RedisMain_holds_or_leaves {W : Type} (client : RedisClient W)
    account transaction w :
  let r := RedisMain.ProcessTransaction client account transaction w in
  (account_after r = account /\
   (reported r = LockAcquisitionFailed \/ exists e, reported r = AcquireError e)) \/
  (account_after r, reported r) = update_balance account (Amount transaction).
Proof.
  unfold RedisMain.ProcessTransaction.
  destruct (RedisMain.AcquireLock client _ _ w) as [[acquired err] w1].
  destruct (update_balance account (Amount transaction)) as [account' out].
  destruct (RedisMain.ReleaseLock client _ w1) as [err' w2].
  destruct err; simpl; eauto. destruct acquired; simpl; eauto.
Qed.

(** C3: in the critical section a negative amount with
    [balance + amount < 0] is rejected with [InsufficientFunds] and the
    account is left as it was; every other amount is added to the balance.
    So after a debit the balance is below zero only if it was before.  The
    lock-based [ProcessTransaction]s run these same statements whenever they
    get the lock, and leave the account alone when they do not. *)
Theorem C3_debit_floor :
  forall (a : Account) (amount : float),
    ((amount <? 0)%float = true /\ (Balance a + amount <? 0)%float = true ->
       Single.ProcessTransaction a amount = (a, InsufficientFunds)) /\
    (~ ((amount <? 0)%float = true /\ (Balance a + amount <? 0)%float = true) ->
       Single.ProcessTransaction a amount =
       ({| AccountNumber := AccountNumber a; Balance := (Balance a + amount)%float |},
        Processed)) /\
    ((amount <? 0)%float = true -> (Balance a <? 0)%float = false ->
       (Balance (fst (Single.ProcessTransaction a amount)) <? 0)%float = false) /\
    (forall (W : Type) (client : RedisClient W) (time : Clock W) (t : Transaction) (w : W),
       Amount t = amount ->
       let r := MockMain.ProcessTransaction client time a t w in
       (account_after r = a /\
        (reported r = LockAcquisitionFailed \/ exists e, reported r = AcquireError e)) \/
       (account_after r, reported r) = Single.ProcessTransaction a amount) /\
    (forall (W : Type) (client : RedisClient W) (t : Transaction) (w : W),
       Amount t = amount ->
       let r := RedisMain.ProcessTransaction client a t w in
       (account_after r = a /\
        (reported r = LockAcquisitionFailed \/ exists e, reported r = AcquireError e)) \/
       (account_after r, reported r) = Single.ProcessTransaction a amount).
Proof.
  intros a amount. unfold Single.ProcessTransaction.
  split; [| split; [| split; [| split]]].
  - intros [H1 H2]. apply update_balance_rejects; assumption.
  - apply update_balance_applies.
  - intros Hneg Hb. unfold update_balance. rewrite Hneg. simpl.
    destruct (Balance a + amount <? 0)%float eqn:E; simpl; [exact Hb | exact E].
  - intros W client time t w <-. apply MockMain_holds_or_leaves.
  - intros W client t w <-. apply RedisMain_holds_or_leaves.
Qed.

Lemma C3_witness :
  let a := {| AccountNumber := "22222"; Balance := 1500 |} in
  Single.ProcessTransaction a (-3000)%float = (a, InsufficientFunds) /\
  Single.ProcessTransaction a (-500)%float =
    ({| AccountNumber := "22222"; Balance := (1500 + -500)%float |}, Processed).
Proof.
  intros a. split.
  - apply (proj1 (C3_debit_floor a (-3000)%float)). split; reflexivity.
  - apply (proj1 (proj2 (C3_debit_floor a (-500)%float))).
    intros [_ H]. discriminate H.
Defined.

(** ** Sequences of critical sections *)

Lemma update_balance_not_below_zero a amount :
  (Balance a <? 0)%float = false ->
  (Balance (fst (update_balance a amount)) <? 0)%float = false.
Proof.
  intros Hb. unfold update_balance.
  destruct (amount <? 0)%float eqn:Ea; simpl.
  - destruct (Balance a + amount <? 0)%float eqn:Es; simpl; [exact Hb | exact Es].
  - apply add_not_below_zero; assumption.
Qed.

Lemma update_balance_nonneg a amount :
  (0 <=? Balance a)%float = true -> is_finite amount = true ->
  (0 <=? Balance (fst (update_balance a amount)))%float = true.
Proof.
  intros Hb Hfin.
  pose proof (update_balance_not_below_zero a amount (nonneg_not_below_zero _ Hb)) as Hnb.
  unfold update_balance in *.
  destruct ((amount <? 0) && (Balance a + amount <? 0))%float; simpl in *; [exact Hb |].
  apply add_nonneg_finite; assumption.
Qed.

Lemma process_all_invariant (P : Account -> Prop) :
  (forall a amount, P a -> P (fst (update_balance a amount))) ->
  forall amounts a, P a -> P (fst (Single.process_all a amounts)).
Proof.
  intros Hstep. induction amounts as [| amount rest IH]; intros a Ha; [exact Ha |].
  simpl. unfold Single.ProcessTransaction.
  specialize (Hstep a amount Ha).
  destruct (update_balance a amount) as [a' out]. simpl in Hstep.
  specialize (IH a' Hstep).
  destruct (Single.process_all a' rest) as [final outs]. exact IH.
Qed.

Lemma process_all_invariant_on (Q : float -> Prop) (P : Account -> Prop) :
  (forall a amount, Q amount -> P a -> P (fst (update_balance a amount))) ->
  forall amounts a, Forall Q amounts -> P a -> P (fst (Single.process_all a amounts)).
Proof.
  intros Hstep. induction amounts as [| amount rest IH]; intros a HQ Ha; [exact Ha |].
  inversion HQ as [| ? ? Hq HQ']; subst.
  simpl. unfold Single.ProcessTransaction.
  specialize (Hstep a amount Hq Ha).
  destruct (update_balance a amount) as [a' out]. simpl in Hstep.
  specialize (IH a' HQ' Hstep).
  destruct (Single.process_all a' rest) as [final outs]. exact IH.
Qed.

(** C10 (as the code has it): over any sequence of critical sections the
    balance never becomes negative if it was not negative at the start; and
    when the amounts are finite numbers (neither NaN nor an infinity), a
    balance that is [>= 0] at the start is [>= 0] after every sequence.  The
    same holds across one [ProcessTransaction] of the lock-based programs,
    whether it gets the lock or not. *)
Theorem C10_balance_stays_nonnegative :
  forall (a : Account) (amounts : list float),
    ((Balance a <? 0)%float = false ->
       (Balance (fst (Single.process_all a amounts)) <? 0)%float = false) /\
    ((0 <=? Balance a)%float = true ->
       Forall (fun amount => is_finite amount = true) amounts ->
       (0 <=? Balance (fst (Single.process_all a amounts)))%float = true) /\
    (forall (W : Type) (client : RedisClient W) (time : Clock W) (t : Transaction) (w : W),
       (0 <=? Balance a)%float = true -> is_finite (Amount t) = true ->
       (0 <=? Balance (account_after (MockMain.ProcessTransaction client time a t w)))%float
         = true /\
       (0 <=? Balance (account_after (RedisMain.ProcessTransaction client a t w)))%float
         = true).
Proof.
  intros a amounts. split; [| split].
  - apply (process_all_invariant (fun a => (Balance a <? 0)%float = false)).
    intros a0 amount. apply update_balance_not_below_zero.
  - intros Hb Hfin.
    apply (process_all_invariant_on (fun amount => is_finite amount = true)
             (fun a => (0 <=? Balance a)%float = true)); try assumption.
    intros a0 amount Hq Ha0. apply update_balance_nonneg; assumption.
  - intros W client time t w Hb Hfin.
    pose proof (update_balance_nonneg a (Amount t) Hb Hfin) as Hu.
    split.
    + destruct (MockMain_holds_or_leaves client time a t w) as [[-> _] | E];
        [exact Hb |].
      apply (f_equal fst) in E. simpl in E. rewrite E. exact Hu.
    + destruct (RedisMain_holds_or_leaves client a t w) as [[-> _] | E];
        [exact Hb |].
      apply (f_equal fst) in E. simpl in E. rewrite E. exact Hu.
Qed.

(** C10 (as claimed) fails on two amounts that are not finite: a credit of
    [+Inf] is applied, then a debit of [-Inf] passes the guard because
    [+Inf + -Inf] is NaN and [NaN < 0] is false; the balance is then NaN,
    which is not [>= 0]. *)
Lemma C10_counterexample :
  let a := {| AccountNumber := "22222"; Balance := 2000 |} in
  let amounts := [infinity; neg_infinity] in
  (0 <=? Balance a)%float = true /\
  (0 <=? infinity)%float = true /\
  (neg_infinity <? 0)%float = true /\
  snd (Single.process_all a amounts) = [Processed; Processed] /\
  (0 <=? Balance (fst (Single.process_all a amounts)))%float = false.
Proof. vm_compute. repeat split; reflexivity. Qed.

Lemma C10_witness :
  let a := {| AccountNumber := "22222"; Balance := 2000 |} in
  let amounts := [(-500)%float; (-3000)%float; 0.5%float; (-1500.5)%float] in
  (0 <=? Balance (fst (Single.process_all a amounts)))%float = true.
Proof.
  intros a amounts.
  apply (proj1 (proj2 (C10_balance_stays_nonnegative a amounts))).
  - reflexivity.
  - repeat constructor.
Defined.

(** ** Balance conservation *)

Lemma total_Permutation zs zs' : Permutation zs zs' -> total zs = total zs'.
Proof. induction 1; simpl in *; lia. Qed.

Lemma magnitude_Permutation zs zs' : Permutation zs zs' -> magnitude zs = magnitude zs'.
Proof. induction 1; simpl in *; lia. Qed.

Lemma magnitude_nonneg zs : 0 <= magnitude zs.
Proof. induction zs; simpl; lia. Qed.

(** Where every amount is applied, whole numbers add up without rounding. *)
Lemma process_all_exact name order :
  forall b : Z,
    Z.abs b + magnitude order < 2 ^ 53 ->
    all_processed (Single.process_all {| AccountNumber := name; Balance := float_of_Z b |}
                     (List.map float_of_Z order)) ->
    fst (Single.process_all {| AccountNumber := name; Balance := float_of_Z b |}
           (List.map float_of_Z order)) =
    {| AccountNumber := name; Balance := float_of_Z (b + total order) |}.
Proof.
  induction order as [| z order IH]; intros b Hrange Hall.
  - simpl. rewrite Z.add_0_r. reflexivity.
  - simpl in Hrange. pose proof (magnitude_nonneg order).
    unfold all_processed in *. simpl in *.
    unfold Single.ProcessTransaction, update_balance in *. simpl in *.
    destruct ((float_of_Z z <? 0) && (float_of_Z b + float_of_Z z <? 0))%float.
    + exfalso.
      destruct (Single.process_all _ _) as [final outs]. simpl in Hall.
      inversion Hall as [| ? ? Hhd _]. discriminate Hhd.
    + rewrite float_of_Z_add in * by lia.
      specialize (IH (b + z) ltac:(lia)).
      destruct (Single.process_all _ _) as [final outs]. simpl in *.
      inversion Hall as [| ? ? _ Htl]; subst.
      rewrite (IH Htl). f_equal. f_equal. lia.
Qed.

(** C4 (as the code has it): for a balance and amounts that are whole
    numbers with [|balance| + sum of |amount|] below [2^53], every order of
    the amounts in which no debit is rejected ends at the initial balance
    plus the sum of all amounts, hence at the same balance as every other
    such order. *)
Theorem C4_conservation_without_rejection :
  forall (name : string) (b : Z) (zs order : list Z),
    Z.abs b + magnitude zs < 2 ^ 53 ->
    Permutation zs order ->
    all_processed (Single.process_all {| AccountNumber := name; Balance := float_of_Z b |}
                     (List.map float_of_Z order)) ->
    Balance (fst (Single.process_all {| AccountNumber := name; Balance := float_of_Z b |}
                    (List.map float_of_Z order))) =
    float_of_Z (b + total zs).
Proof.
  intros name b zs order Hrange Hperm Hall.
  rewrite (magnitude_Permutation _ _ Hperm) in Hrange.
  rewrite (process_all_exact name order b Hrange Hall). simpl.
  rewrite (total_Permutation _ _ Hperm). reflexivity.
Qed.

Lemma C4_witness :
  Balance (fst (Single.process_all {| AccountNumber := "11111"; Balance := float_of_Z 1000 |}
                  (List.map float_of_Z [100; -200; 300]))) =
  float_of_Z (1000 + total [-200; 300; 100]).
Proof.
  apply (C4_conservation_without_rejection "11111" 1000 [-200; 300; 100] [100; -200; 300]).
  - vm_compute. reflexivity.
  - apply permutations_Permutation. vm_compute.
    repeat first [apply list_elem_of_here | apply list_elem_of_further].
  - vm_compute. repeat constructor.
Defined.

(** C4 (as claimed) fails twice.  From balance 0 the amounts 100 and -50 are
    both applied in that order, giving 50; in the other order the debit is
    rejected and the balance ends at 100.  And where nothing can be rejected,
    float64 rounding still tells the orders apart: from 0.3, the credits 0.2
    and 0.1 give 0.6 in that order and 0.6000000000000001 in the other. *)
#[warnings="-inexact-float"]
Lemma C4_counterexample :
  let a := {| AccountNumber := "11111"; Balance := 0 |} in
  let c := {| AccountNumber := "11111"; Balance := 0.3 |} in
  (all_processed (Single.process_all a [100; -50]%float) /\
   Permutation [100; -50]%float [-50; 100]%float /\
   Balance (fst (Single.process_all a [100; -50]%float)) = 50%float /\
   Balance (fst (Single.process_all a [-50; 100]%float)) = 100%float /\
   (50 =? 100)%float = false) /\
  (all_processed (Single.process_all c [0.2; 0.1]%float) /\
   all_processed (Single.process_all c [0.1; 0.2]%float) /\
   Permutation [0.2; 0.1]%float [0.1; 0.2]%float /\
   Balance (fst (Single.process_all c [0.2; 0.1]%float)) = 0.6%float /\
   Balance (fst (Single.process_all c [0.1; 0.2]%float)) = 0.6000000000000001%float /\
   (0.6 =? 0.6000000000000001)%float = false).
Proof.
  intros a c. split.
  - split; [vm_compute; repeat constructor |].
    split; [apply perm_swap |].
    vm_compute. repeat split; reflexivity.
  - split; [vm_compute; repeat constructor |].
    split; [vm_compute; repeat constructor |].
    split; [apply perm_swap |].
    vm_compute. repeat split; reflexivity.
Qed.


(** ** The retry loop *)

Ltac case_attempt client lock w :=
  let acquired := fresh "acquired" in
  let err := fresh "err" in
  let w' := fresh "w" in
  destruct (SetNX client (key lock) (value lock) (5 * Second) w)
    as [[acquired [err |]] w'] eqn:?; simpl;
  [| destruct acquired; simpl].

Ltac invert_Forall :=
  repeat match goal with
         | H : Forall _ (_ :: _) |- _ => inversion H; clear H; subst
         end.

Ltac split_In H :=
  simpl in H;
  repeat match type of H with
         | _ \/ _ => destruct H as [H | H]
         end.

(** C7: a [ProcessTransaction] calls [AcquireLock] at least once and at most
    three times, sleeping 100 ms between one failed attempt and the next.
    When every attempt answers [false] there were three of them, the
    transaction is reported as skipped and the account is as before; when
    an attempt returns an error, it is the last one, that error is reported
    and the account is as before. *)
Theorem C7_bounded_retry :
  forall (W : Type) (client : RedisClient W) (time : Clock W)
         (account : Account) (transaction : Transaction) (w : W),
    let r := MockMain.ProcessTransaction client time account transaction w in
    let lock := MockMain.new_lock time account w in
    (1 <= length (attempts (trace r)) <= 3)%nat /\
    retry_shape lock (trace r) /\
    (Forall (fun a => a = (false, None)) (attempts (trace r)) ->
       length (attempts (trace r)) = 3%nat /\
       reported r = LockAcquisitionFailed /\ account_after r = account) /\
    (forall acquired e, In (acquired, Some e) (attempts (trace r)) ->
       last (attempts (trace r)) = Some (acquired, Some e) /\
       reported r = AcquireError e /\ account_after r = account) /\
    (reported r = LockAcquisitionFailed ->
       attempts (trace r) = [(false, None); (false, None); (false, None)] /\
       account_after r = account).
Proof.
  intros W client time account transaction w r lock.
  subst r. unfold MockMain.ProcessTransaction. fold lock. clearbody lock.
  unfold MockMain.retry_loop, MockMain.AcquireLock.
  assert (Hout : forall a o, update_balance account (Amount transaction) = (a, o) ->
                 o <> LockAcquisitionFailed).
  { intros a o. unfold update_balance. destruct (_ && _); intros [= <- <-]; discriminate. }
  destruct (update_balance account (Amount transaction)) as [a' o'] eqn:Eu.
  specialize (Hout a' o' eq_refl).
  case_attempt client lock w;
    [| | case_attempt client lock (Sleep time (100 * Millisecond) w0);
         [| | case_attempt client lock (Sleep time (100 * Millisecond) w1)]];
    try match goal with
        | |- context [MockMain.ReleaseLock client lock ?w] =>
            destruct (MockMain.ReleaseLock client lock w) as [? ?]; simpl
        end;
    (split; [simpl; lia |]);
    (split; [repeat apply shape_again; apply shape_last;
             first [left; reflexivity | right; eexists; reflexivity] |]);
    (split; [intros HF; invert_Forall; try discriminate; repeat split; reflexivity |]);
    (split; [intros acquired' e' HIn; split_In HIn; try discriminate HIn;
             try contradiction; inversion HIn; subst; repeat split; reflexivity |]);
    intros Hr; try discriminate Hr; try contradiction; split; reflexivity.
Qed.

Lemma C7_witness :
  let account := {| AccountNumber := "11111"; Balance := 1000 |} in
  let transaction := {| TxAccountNumber := "11111"; Amount := (-200) |} in
  let held := snd (Mock.SetNX "account:11111:lock" "unique-identifier-1" (5 * Second)
                     (NewWorld 2)) in
  let skipped := MockMain.ProcessTransaction mock_client mock_clock account transaction held in
  let failed :=
    MockMain.ProcessTransaction unreachable_client mock_clock account transaction
      (NewWorld 2) in
  (length (attempts (trace skipped)) = 3%nat /\
   reported skipped = LockAcquisitionFailed /\ account_after skipped = account) /\
  (last (attempts (trace failed)) = Some (false, Some connection_refused) /\
   reported failed = AcquireError connection_refused /\ account_after failed = account).
Proof.
  intros account transaction held skipped failed. split.
  - apply (proj1 (proj2 (proj2
             (C7_bounded_retry World mock_client mock_clock account transaction held)))).
    vm_compute. repeat constructor.
  - apply (proj1 (proj2 (proj2 (proj2
             (C7_bounded_retry World unreachable_client mock_clock account transaction
                (NewWorld 2)))))).
    left. reflexivity.
Defined.

(** ** Tokens *)

(** C9 (as the code has it): every [ProcessTransaction] of
    [distributed/redis/main.go] presents the one token "unique-identifier",
    whatever the account, the transaction and the moment; the token of
    [distributed/mock_redis/main.go] is a function of the clock reading, so
    two attempts have the same token exactly when they read the same
    nanosecond. *)
Theorem C9_redis_token_is_shared :
  (forall (W : Type) (client : RedisClient W)
          (a1 a2 : Account) (t1 t2 : Transaction) (w1 w2 : W),
     tokens (trace (RedisMain.ProcessTransaction client a1 t1 w1)) = ["unique-identifier"] /\
     tokens (trace (RedisMain.ProcessTransaction client a2 t2 w2)) = ["unique-identifier"]) /\
  (forall (W : Type) (time : Clock W) (a1 a2 : Account) (w1 w2 : W),
     value (MockMain.new_lock time a1 w1) = value (MockMain.new_lock time a2 w2) <->
     UnixNano time w1 = UnixNano time w2).
Proof.
  split.
  - assert (H : forall (W : Type) (client : RedisClient W) a t (w : W),
               tokens (trace (RedisMain.ProcessTransaction client a t w)) =
               ["unique-identifier"]).
    { intros W client a t w. unfold RedisMain.ProcessTransaction.
      destruct (RedisMain.AcquireLock client _ _ w) as [[acquired [e |]] w1];
        [reflexivity |].
      destruct acquired; simpl; [| reflexivity].
      destruct (update_balance a (Amount t)) as [a' o].
      destruct (RedisMain.ReleaseLock client _ w1) as [e' w2]. reflexivity. }
    intros. split; apply H.
  - intros W time a1 a2 w1 w2. simpl. split.
    + intros H. apply (inj (String.append "unique-identifier-")) in H.
      apply (inj pretty) in H. exact H.
    + intros ->. reflexivity.
Qed.

(** With the shared token the comparison in [ReleaseLock] cannot tell a
    former holder from the present one: when the record of a first holder
    has expired and a second goroutine holds the lock, the late release of
    the first removes the record of the second. *)
Lemma shared_token_release_evicts :
  let account := {| AccountNumber := "11111"; Balance := 1000 |} in
  let first := RedisMain.new_lock account in
  let second := RedisMain.new_lock account in
  let w1 := snd (RedisMain.AcquireLock mock_client first (5 * Second) (NewWorld 0)) in
  let w2 := snd (RedisMain.AcquireLock mock_client second (5 * Second)
                   (Mock.Sleep (6 * Second) w1)) in
  data (rdb w2) !! key second = Some (value second) /\
  RedisMain.ReleaseLock mock_client first w2 = (None, without (key second) w2) /\
  data (rdb (without (key second) w2)) !! key second = None.
Proof. vm_compute. repeat split; reflexivity. Qed.

(** ** The end-to-end scenario *)

Lemma scenario_all_orders :
  Forall (fun order => scenario_ok (Single.run order accounts)) (permutations transactions).
Proof.
  unfold scenario_ok.
  let l := eval vm_compute in (permutations transactions) in
  change (permutations transactions) with l.
  repeat (apply Forall_cons; split; [vm_compute; repeat split; reflexivity |]).
  apply Forall_nil. constructor.
Qed.

(** Run one after the other on a store without live records, the goroutines
    of the mock-Redis program each get the lock at the first attempt, so
    they do to the accounts what the mutex-guarded ones do. *)
Lemma MockMain_uncontended account transaction w :
  data (rdb w) = ∅ ->
  let r := MockMain.ProcessTransaction mock_client mock_clock account transaction w in
  (account_after r, reported r) = update_balance account (Amount transaction) /\
  data (rdb (world r)) = ∅.
Proof.
  intros Hempty. unfold MockMain.ProcessTransaction.
  set (lock := MockMain.new_lock mock_clock account w).
  assert (Hk : data (rdb w) !! key lock = None) by (rewrite Hempty; apply lookup_empty).
  clearbody lock.
  unfold MockMain.retry_loop, MockMain.AcquireLock.
  change (SetNX mock_client) with Mock.SetNX.
  assert (Hset : Mock.SetNX (key lock) (value lock) (5 * Second) w =
                 ((true, None),
                  {| rdb := {| data := <[key lock := value lock]> (data (rdb w)) |};
                     sleepers := sleepers w ++
                       [{| wake := now w + Z.max 0 (5 * Second);
                           rkey := key lock; rvalue := value lock |}];
                     now := now w |})).
  { unfold Mock.SetNX. rewrite Hk. reflexivity. }
  rewrite Hset. lazy beta iota zeta.
  destruct (update_balance account (Amount transaction)) as [a' o'].
  rewrite Mock_release_holder by (simpl; apply lookup_insert_eq).
  simpl. split; [reflexivity |].
  rewrite Hempty, delete_insert_eq. apply delete_empty.
Qed.

Lemma MockMain_run_uncontended order accs w :
  data (rdb w) = ∅ ->
  fst (MockMain.run mock_client mock_clock order accs w) = Single.run order accs.
Proof.
  revert accs w. induction order as [| t order IH]; intros accs w Hempty; [reflexivity |].
  simpl. destruct (accs !! TxAccountNumber t) as [account |] eqn:Ea.
  - destruct (MockMain_uncontended account t w Hempty) as [Hr Hw].
    unfold Single.ProcessTransaction. rewrite <- Hr.
    specialize (IH (<[TxAccountNumber t :=
                      account_after (MockMain.ProcessTransaction mock_client mock_clock
                                       account t w)]> accs) _ Hw).
    destruct (MockMain.run mock_client mock_clock order _ _) as [[final log] w'].
    simpl in IH. rewrite <- IH. reflexivity.
  - specialize (IH accs w Hempty).
    destruct (MockMain.run mock_client mock_clock order accs w) as [[final log] w'].
    simpl in IH. rewrite <- IH. reflexivity.
Qed.

(** C5: from balances 1000 and 2000, in whatever order the five critical
    sections of the scenario are run, account 11111 ends at 1200, account
    22222 at 1500, and the transaction (22222, -3000) is the one, and the
    only one, rejected with [InsufficientFunds].  This is so under the mutex
    of [single/main.go] and for the goroutines of the mock-Redis program run
    one after the other. *)
Theorem C5_scenario_every_order :
  forall order : list Transaction,
    Permutation transactions order ->
    scenario_ok (Single.run order accounts) /\
    (forall t : Z,
       scenario_ok (fst (MockMain.run mock_client mock_clock order accounts (NewWorld t)))).
Proof.
  intros order Hperm.
  assert (H : scenario_ok (Single.run order accounts)).
  { pose proof scenario_all_orders as Hall.
    rewrite Forall_forall in Hall. apply Hall.
    apply permutations_Permutation. exact Hperm. }
  split; [exact H |].
  intros t. rewrite MockMain_run_uncontended by reflexivity. exact H.
Qed.

Lemma C5_witness :
  let order :=
    [ {| TxAccountNumber := "22222"; Amount := (-3000) |};
      {| TxAccountNumber := "11111"; Amount := 100 |};
      {| TxAccountNumber := "22222"; Amount := (-500) |};
      {| TxAccountNumber := "11111"; Amount := 300 |};
      {| TxAccountNumber := "11111"; Amount := (-200) |} ] in
  scenario_ok (Single.run order accounts) /\
  (forall t : Z,
     scenario_ok (fst (MockMain.run mock_client mock_clock order accounts (NewWorld t)))).
Proof.
  intros order. apply (C5_scenario_every_order order).
  apply permutations_Permutation. vm_compute.
  repeat first [apply list_elem_of_here | apply list_elem_of_further].
Defined.

(** * Further properties of the code *)

(** ** The store: round trips and footprints *)

Lemma world_eq (w1 w2 : World) :
  data (rdb w1) = data (rdb w2) -> sleepers w1 = sleepers w2 -> now w1 = now w2 ->
  w1 = w2.
Proof.
  destruct w1 as [[d1] s1 n1], w2 as [[d2] s2 n2]. simpl. intros -> -> ->. reflexivity.
Qed.

(** X1: a record written by [SetNX] is read back by [Get]; [Del] then
    removes it, answering 1, and puts the map back as it was before the
    [SetNX]; after that [Get] fails with "key not found" and a second [Del]
    answers 0 and changes nothing. *)
Theorem X1_store_round_trip :
  forall (k v : string) (ttl : Z) (w : World),
    data (rdb w) !! k = None ->
    let w1 := snd (Mock.SetNX k v ttl w) in
    let w2 := snd (Mock.Del k w1) in
    Mock.Get k w1 = ((v, None), w1) /\
    fst (Mock.Del k w1) = (1, None) /\
    data (rdb w2) = data (rdb w) /\
    Mock.Get k w2 = (("", Some key_not_found), w2) /\
    Mock.Del k w2 = ((0, None), w2).
Proof.
  intros k v ttl w Hk w1 w2.
  assert (H1 : data (rdb w1) !! k = Some v).
  { unfold w1, Mock.SetNX. rewrite Hk. simpl. apply lookup_insert_eq. }
  assert (E2 : data (rdb w2) = data (rdb w)).
  { unfold w2. rewrite (Mock_Del_live _ _ _ H1). simpl.
    unfold w1, Mock.SetNX. rewrite Hk. simpl.
    rewrite delete_insert_eq. apply delete_id, Hk. }
  assert (H2 : data (rdb w2) !! k = None) by (rewrite E2; exact Hk).
  split; [apply Mock_Get_live, H1 |].
  split; [rewrite (Mock_Del_live _ _ _ H1); reflexivity |].
  split; [exact E2 |].
  split; [apply Mock_Get_absent, H2 |].
  unfold Mock.Del. rewrite H2. reflexivity.
Qed.

Lemma X1_witness :
  let w := NewWorld 0 in
  let w1 := snd (Mock.SetNX "test-key" "test-value" (1 * Second) w) in
  let w2 := snd (Mock.Del "test-key" w1) in
  Mock.Get "test-key" w1 = (("test-value", None), w1) /\
  fst (Mock.Del "test-key" w1) = (1, None) /\
  data (rdb w2) = data (rdb w) /\
  Mock.Get "test-key" w2 = (("", Some key_not_found), w2) /\
  Mock.Del "test-key" w2 = ((0, None), w2).
Proof.
  apply (X1_store_round_trip "test-key" "test-value" (1 * Second) (NewWorld 0)).
  reflexivity.
Defined.

(** X2: the three methods of [MockRedis] touch one key only: the record of
    every other key is as before; [Get] changes nothing at all, and none of
    them moves the clock or wakes, removes or reorders a sleeping reaper
    (only a successful [SetNX] adds one, at the end). *)
Theorem X2_store_footprint :
  forall (k k' v : string) (ttl : Z) (w : World),
    k <> k' ->
    (data (rdb (snd (Mock.SetNX k v ttl w))) !! k' = data (rdb w) !! k' /\
     data (rdb (snd (Mock.Del k w))) !! k' = data (rdb w) !! k') /\
    snd (Mock.Get k w) = w /\
    (now (snd (Mock.SetNX k v ttl w)) = now w /\ now (snd (Mock.Del k w)) = now w) /\
    (sleepers (snd (Mock.Del k w)) = sleepers w /\
     exists new, sleepers (snd (Mock.SetNX k v ttl w)) = sleepers w ++ new /\
                 (length new <= 1)%nat /\
                 (new = [] <-> fst (fst (Mock.SetNX k v ttl w)) = false)).
Proof.
  intros k k' v ttl w Hne.
  unfold Mock.SetNX, Mock.Del, Mock.Get.
  destruct (data (rdb w) !! k) as [old |] eqn:Ek; simpl.
  - repeat split; try reflexivity.
    + apply lookup_delete_ne, Hne.
    + exists []. rewrite app_nil_r. repeat split; auto.
  - repeat split; try reflexivity.
    + apply lookup_insert_ne, Hne.
    + eexists. split; [reflexivity |]. simpl. split; [lia |].
      split; intros H; discriminate H.
Qed.

Lemma X2_witness :
  let w := snd (Mock.SetNX "account:22222:lock" "b" (5 * Second) (NewWorld 0)) in
  data (rdb (snd (Mock.SetNX "account:11111:lock" "a" (5 * Second) w)))
    !! "account:22222:lock" = Some "b" /\
  data (rdb (snd (Mock.Del "account:11111:lock" w))) !! "account:22222:lock" = Some "b".
Proof.
  intros w.
  apply (proj1 (X2_store_footprint "account:11111:lock" "account:22222:lock" "a"
                  (5 * Second) w ltac:(discriminate))).
Defined.

(** ** Reapers *)

Lemma MockRedis_eq (m1 m2 : MockRedis) : data m1 = data m2 -> m1 = m2.
Proof. destruct m1, m2. simpl. intros ->. reflexivity. Qed.

Lemma reap_data r m :
  data (reap r m) =
  if String.eqb (default "" (data m !! rkey r)) (rvalue r)
  then delete (rkey r) (data m) else data m.
Proof. unfold reap. destruct (String.eqb _ _); reflexivity. Qed.

Lemma reap_comm r1 r2 m : reap r1 (reap r2 m) = reap r2 (reap r1 m).
Proof.
  apply MockRedis_eq. rewrite !reap_data.
  destruct (decide (rkey r1 = rkey r2)) as [E | Hne].
  - rewrite <- E.
    destruct (String.eqb_spec (default "" (data m !! rkey r1)) (rvalue r1)) as [H1 | H1];
      destruct (String.eqb_spec (default "" (data m !! rkey r1)) (rvalue r2)) as [H2 | H2];
      rewrite ?lookup_delete_eq; change (default "" (@None string)) with "";
      repeat match goal with
             | |- context [String.eqb ?a ?b] => destruct (String.eqb_spec a b)
             end;
      rewrite ?delete_delete_eq; first [reflexivity | congruence].
  - assert (L12 : forall d : gmap string string,
                  delete (rkey r2) d !! rkey r1 = d !! rkey r1).
    { intros d. apply lookup_delete_ne. congruence. }
    assert (L21 : forall d : gmap string string,
                  delete (rkey r1) d !! rkey r2 = d !! rkey r2).
    { intros d. apply lookup_delete_ne. exact Hne. }
    destruct (String.eqb (default "" (data m !! rkey r1)) (rvalue r1)) eqn:C1;
      destruct (String.eqb (default "" (data m !! rkey r2)) (rvalue r2)) eqn:C2;
      rewrite ?L12, ?L21, ?C1, ?C2; try reflexivity.
    apply delete_delete.
Qed.

Lemma reap_all_Permutation rs rs' :
  Permutation rs rs' ->
  forall m, fold_left (fun m r => reap r m) rs m = fold_left (fun m r => reap r m) rs' m.
Proof.
  induction 1 as [| r rs rs' _ IH | r1 r2 rs | rs1 rs2 rs3 _ IH1 _ IH2]; intros m; simpl.
  - reflexivity.
  - apply IH.
  - rewrite reap_comm. reflexivity.
  - rewrite IH1. apply IH2.
Qed.

Lemma due_split t1 t2 rs :
  t1 <= t2 ->
  Permutation (List.filter (Mock.due t2) rs)
    (List.filter (Mock.due t1) rs ++
     List.filter (Mock.due t2) (List.filter (fun r => negb (Mock.due t1 r)) rs)) /\
  List.filter (fun r => negb (Mock.due t2 r))
    (List.filter (fun r => negb (Mock.due t1 r)) rs) =
  List.filter (fun r => negb (Mock.due t2 r)) rs.
Proof.
  intros Ht. induction rs as [| r rs [IHp IHe]]; [split; [constructor | reflexivity] |].
  simpl. unfold Mock.due in *.
  destruct (wake r <=? t1) eqn:E1; simpl.
  - assert (E2 : (wake r <=? t2) = true) by (apply Z.leb_le; apply Z.leb_le in E1; lia).
    rewrite E2. simpl. split; [constructor; exact IHp | exact IHe].
  - destruct (wake r <=? t2) eqn:E2; simpl.
    + split; [| exact IHe].
      etransitivity; [constructor; exact IHp |]. apply Permutation_middle.
    + split; [exact IHp | f_equal; exact IHe].
Qed.

(** X3: the reapers whose sleep has ended may run in any order: the store
    they leave is the same.  Hence sleeping in two steps is sleeping once:
    [Sleep d2] after [Sleep d1] leaves the world of [Sleep (d1 + d2)].  After
    a sleep no reaper that is due is left asleep. *)
Theorem X3_reapers_commute :
  forall (w : World) (d1 d2 : Z),
    0 <= d1 -> 0 <= d2 ->
    (forall rs' m, Permutation (sleepers w) rs' ->
       fold_left (fun m r => reap r m) rs' m =
       fold_left (fun m r => reap r m) (sleepers w) m) /\
    Mock.Sleep d2 (Mock.Sleep d1 w) = Mock.Sleep (d1 + d2) w /\
    Forall (fun r => now (Mock.Sleep d1 w) < wake r) (sleepers (Mock.Sleep d1 w)).
Proof.
  intros w d1 d2 H1 H2. split; [| split].
  - intros rs' m Hp. symmetry. apply reap_all_Permutation, Hp.
  - destruct (due_split (now w + d1) (now w + d1 + d2) (sleepers w) ltac:(lia))
      as [Hp He].
    apply world_eq; unfold Mock.Sleep; simpl;
      rewrite ?Z.max_r by lia; rewrite ?Z.add_assoc.
    + rewrite (reap_all_Permutation _ _ Hp), fold_left_app. reflexivity.
    + exact He.
    + reflexivity.
  - unfold Mock.Sleep. simpl. apply Forall_forall. intros r Hin.
    apply list_elem_of_In, filter_In in Hin. destruct Hin as [_ Hd].
    unfold Mock.due in Hd. apply negb_true_iff, Z.leb_gt in Hd. exact Hd.
Qed.

Lemma X3_witness :
  let w := snd (Mock.SetNX "b" "2" (3 * Second)
                  (snd (Mock.SetNX "a" "1" (1 * Second) (NewWorld 0)))) in
  Mock.Sleep (2 * Second) (Mock.Sleep (2 * Second) w) = Mock.Sleep (2 * Second + 2 * Second) w.
Proof.
  intros w.
  apply (proj1 (proj2 (X3_reapers_commute w (2 * Second) (2 * Second)
                         ltac:(unfold Second, Millisecond; lia)
                         ltac:(unfold Second, Millisecond; lia)))).
Defined.

(** ** How long a record lives *)

(** The record of [k] holds [v], and no reaper that would remove it wakes
    up before [deadline] is over. *)
Definition held (k v : string) (deadline : Z) (w : World) : Prop :=
  data (rdb w) !! k = Some v /\
  Forall (fun r => rkey r = k -> rvalue r = v -> deadline < wake r) (sleepers w).

Lemma reap_other k v r m :
  data m !! k = Some v -> ~ (rkey r = k /\ rvalue r = v) -> data (reap r m) !! k = Some v.
Proof.
  intros Hk Hr. rewrite reap_data.
  destruct (String.eqb_spec (default "" (data m !! rkey r)) (rvalue r)) as [E | E];
    [| exact Hk].
  destruct (decide (rkey r = k)) as [Ek | Ek].
  - exfalso. apply Hr. split; [exact Ek |]. rewrite Ek, Hk in E. simpl in E. congruence.
  - rewrite lookup_delete_ne by exact Ek. exact Hk.
Qed.

Lemma reap_all_other k v rs :
  Forall (fun r => ~ (rkey r = k /\ rvalue r = v)) rs ->
  forall m, data m !! k = Some v ->
  data (fold_left (fun m r => reap r m) rs m) !! k = Some v.
Proof.
  induction 1 as [| r rs Hr _ IH]; intros m Hk; simpl; [exact Hk |].
  apply IH, reap_other; assumption.
Qed.

Lemma held_Sleep k v deadline d w :
  held k v deadline w -> now w + Z.max 0 d <= deadline ->
  held k v deadline (Mock.Sleep d w).
Proof.
  intros [Hk Hs] Ht. rewrite Forall_forall in Hs. split; simpl.
  - apply reap_all_other; [| exact Hk].
    apply Forall_forall. intros r Hin [Erk Erv].
    apply list_elem_of_In, filter_In in Hin. destruct Hin as [Hin Hdue].
    unfold Mock.due in Hdue. apply Z.leb_le in Hdue.
    specialize (Hs r (proj2 (list_elem_of_In _ _) Hin) Erk Erv). lia.
  - apply Forall_forall. intros r Hin.
    apply list_elem_of_In, filter_In in Hin. destruct Hin as [Hin _].
    apply Hs, list_elem_of_In, Hin.
Qed.

Lemma held_SetNX k v deadline k' v' ttl w :
  held k v deadline w -> held k v deadline (snd (Mock.SetNX k' v' ttl w)).
Proof.
  intros [Hk Hs]. unfold Mock.SetNX.
  destruct (data (rdb w) !! k') eqn:Ek'; simpl; [split; assumption |].
  assert (Hne : k' <> k) by congruence.
  split; simpl.
  - rewrite lookup_insert_ne by exact Hne. exact Hk.
  - apply Forall_app. split; [exact Hs |].
    constructor; [| constructor]. simpl. intros E. contradiction.
Qed.

Lemma held_step k v deadline o w :
  held k v deadline w -> now w + elapsed [o] <= deadline -> deletes k [o] = false ->
  held k v deadline (step o w).
Proof.
  intros H Ht Hd. destruct o as [k' v' ttl | k' | k' | d]; simpl.
  - apply held_SetNX, H.
  - unfold Mock.Get. destruct (data (rdb w) !! k'); exact H.
  - simpl in Hd. rewrite orb_false_r in Hd. apply String.eqb_neq in Hd.
    destruct H as [Hk Hs]. unfold Mock.Del.
    destruct (data (rdb w) !! k'); simpl; [| split; assumption].
    split; simpl; [| exact Hs]. rewrite lookup_delete_ne by exact Hd. exact Hk.
  - apply held_Sleep; [exact H |]. simpl in Ht. lia.
Qed.

Lemma elapsed_nonneg ops : 0 <= elapsed ops.
Proof. induction ops as [| [] ops IH]; simpl; lia. Qed.

Lemma held_run k v deadline ops :
  forall w, held k v deadline w -> now w + elapsed ops <= deadline ->
            deletes k ops = false -> held k v deadline (run_ops ops w).
Proof.
  induction ops as [| o ops IH]; intros w H Ht Hd; [exact H |].
  change (run_ops (o :: ops) w) with (run_ops ops (step o w)).
  assert (Hd1 : deletes k [o] = false /\ deletes k ops = false).
  { unfold deletes in *. simpl in *. apply orb_false_iff in Hd.
    destruct Hd as [-> ->]. split; reflexivity. }
  pose proof (elapsed_nonneg ops).
  assert (He : elapsed (o :: ops) = elapsed [o] + elapsed ops).
  { destruct o; simpl; lia. }
  apply IH.
  - apply held_step; [exact H | lia | apply Hd1].
  - rewrite now_step. lia.
  - apply Hd1.
Qed.

(** X4: a record written by [SetNX] with TTL [ttl] stays readable for as
    long as less than [ttl] has passed, whatever else is done to the store
    short of a [Del] of its key, provided no reaper of an earlier record of
    that key with the same value is still asleep. *)
Theorem X4_record_lives_until_ttl :
  forall (k v : string) (ttl : Z) (w : World) (ops : list store_op),
    data (rdb w) !! k = None ->
    Forall (fun r => ~ (rkey r = k /\ rvalue r = v)) (sleepers w) ->
    deletes k ops = false ->
    elapsed ops < ttl ->
    let w' := run_ops ops (snd (Mock.SetNX k v ttl w)) in
    Mock.Get k w' = ((v, None), w') /\
    (forall v' ttl', Mock.SetNX k v' ttl' w' = ((false, None), w')).
Proof.
  intros k v ttl w ops Hk Hfree Hd Ht w'.
  pose proof (elapsed_nonneg ops) as Hpos.
  assert (H : held k v (now w + ttl - 1) w').
  { apply held_run; [| | exact Hd].
    - unfold Mock.SetNX. rewrite Hk. split; simpl; [apply lookup_insert_eq |].
      apply Forall_app. split.
      + eapply Forall_impl; [exact Hfree |]. intros r Hr E1 E2. exfalso. apply Hr. auto.
      + constructor; [| constructor]. simpl. intros _ _. lia.
    - unfold Mock.SetNX. rewrite Hk. simpl. lia. }
  destruct H as [Hlive _]. split.
  - apply Mock_Get_live, Hlive.
  - intros v' ttl'. apply SetNX_live. exists v. exact Hlive.
Qed.

Lemma X4_witness :
  let ops := [OpSleep (50 * Millisecond); OpSetNX "test-key" "other" (1 * Second);
              OpDel "another-key"; OpSleep (49 * Millisecond)] in
  let w' := run_ops ops (snd (Mock.SetNX "test-key" "test-value" (100 * Millisecond)
                                (NewWorld 0))) in
  Mock.Get "test-key" w' = (("test-value", None), w') /\
  (forall v' ttl', Mock.SetNX "test-key" v' ttl' w' = ((false, None), w')).
Proof.
  intros ops.
  apply (X4_record_lives_until_ttl "test-key" "test-value" (100 * Millisecond)
           (NewWorld 0) ops).
  - reflexivity.
  - constructor.
  - reflexivity.
  - vm_compute. reflexivity.
Defined.

(** X5: the reaper tells records apart by their value only.  When a key is
    released and acquired again with the same value before the first TTL
    has run out, the reaper of the first record removes the second one at
    the end of the first TTL, however long the second TTL is. *)
Theorem X5_same_value_expires_early :
  forall (k v : string) (ttl1 ttl2 d d' : Z) (w : World),
    data (rdb w) !! k = None ->
    0 <= d < ttl1 ->
    ttl1 <= d + d' ->
    let w1 := snd (Mock.SetNX k v ttl1 w) in
    let w2 := Mock.Sleep d (snd (Mock.Del k w1)) in
    let w3 := snd (Mock.SetNX k v ttl2 w2) in
    fst (Mock.Del k w1) = (1, None) /\
    fst (Mock.SetNX k v ttl2 w2) = (true, None) /\
    data (rdb w3) !! k = Some v /\
    Mock.Get k (Mock.Sleep d' w3) = (("", Some key_not_found), Mock.Sleep d' w3).
Proof.
  intros k v ttl1 ttl2 d d' w Hk Hd Hd' w1 w2 w3.
  set (r1 := {| wake := now w + Z.max 0 ttl1; rkey := k; rvalue := v |}).
  assert (E1 : w1 = {| rdb := {| data := <[k := v]> (data (rdb w)) |};
                       sleepers := sleepers w ++ [r1]; now := now w |}).
  { unfold w1, Mock.SetNX. rewrite Hk. reflexivity. }
  assert (H1 : data (rdb w1) !! k = Some v) by (rewrite E1; apply lookup_insert_eq).
  assert (EDel : Mock.Del k w1 = ((1, None), without k w1)) by (eapply Mock_Del_live; eauto).
  assert (H2 : data (rdb w2) !! k = None).
  { unfold w2. rewrite EDel. simpl. apply reap_all_gone. simpl. apply lookup_delete_eq. }
  assert (Hin2 : In r1 (sleepers w2)).
  { unfold w2. rewrite EDel. simpl. apply filter_In. split.
    - rewrite E1. simpl. apply in_or_app. right. left. reflexivity.
    - unfold Mock.due. simpl. apply negb_true_iff, Z.leb_gt. rewrite E1. simpl. lia. }
  assert (E3 : Mock.SetNX k v ttl2 w2 =
               ((true, None),
                {| rdb := {| data := <[k := v]> (data (rdb w2)) |};
                   sleepers := sleepers w2 ++
                     [{| wake := now w2 + Z.max 0 ttl2; rkey := k; rvalue := v |}];
                   now := now w2 |})).
  { unfold Mock.SetNX. rewrite H2. reflexivity. }
  split; [rewrite EDel; reflexivity |].
  split; [rewrite E3; reflexivity |].
  assert (H3 : data (rdb w3) !! k = Some v).
  { unfold w3. rewrite E3. simpl. apply lookup_insert_eq. }
  split; [exact H3 |].
  apply Mock_Get_absent. simpl.
  apply (reap_all_mine k v _ _ r1); try reflexivity.
  - apply filter_In. split.
    + unfold w3. rewrite E3. simpl. apply in_or_app. left. exact Hin2.
    + unfold Mock.due. apply Z.leb_le.
      unfold w3. rewrite E3. simpl. rewrite EDel, E1. simpl. lia.
  - right. exact H3.
Qed.

Lemma X5_witness :
  let w1 := snd (Mock.SetNX "test-key" "test-value" (1 * Second) (NewWorld 0)) in
  let w2 := Mock.Sleep (900 * Millisecond) (snd (Mock.Del "test-key" w1)) in
  let w3 := snd (Mock.SetNX "test-key" "test-value" (5 * Second) w2) in
  fst (Mock.Del "test-key" w1) = (1, None) /\
  fst (Mock.SetNX "test-key" "test-value" (5 * Second) w2) = (true, None) /\
  data (rdb w3) !! "test-key" = Some "test-value" /\
  Mock.Get "test-key" (Mock.Sleep (100 * Millisecond) w3) =
    (("", Some key_not_found), Mock.Sleep (100 * Millisecond) w3).
Proof.
  apply (X5_same_value_expires_early "test-key" "test-value" (1 * Second) (5 * Second)
           (900 * Millisecond) (100 * Millisecond) (NewWorld 0)).
  - reflexivity.
  - unfold Second, Millisecond. lia.
  - unfold Second, Millisecond. lia.
Defined.

(** ** The lock *)

(** X6: the cycle of [TestRedisLock], for any lock on a free key: the first
    [AcquireLock] succeeds, a second one fails and changes nothing,
    [ReleaseLock] then succeeds and puts the map back as it was before the
    lock was taken, and the lock can be acquired again. *)
Theorem X6_lock_cycle :
  forall (lock : RedisLock) (ttl1 ttl2 ttl3 : Z) (w : World),
    data (rdb w) !! key lock = None ->
    let w1 := snd (MockMain.AcquireLock mock_client lock ttl1 w) in
    let w2 := snd (MockMain.ReleaseLock mock_client lock w1) in
    fst (MockMain.AcquireLock mock_client lock ttl1 w) = (true, None) /\
    MockMain.AcquireLock mock_client lock ttl2 w1 = ((false, None), w1) /\
    fst (MockMain.ReleaseLock mock_client lock w1) = None /\
    data (rdb w2) = data (rdb w) /\
    fst (MockMain.AcquireLock mock_client lock ttl3 w2) = (true, None).
Proof.
  intros lock ttl1 ttl2 ttl3 w Hk w1 w2.
  unfold MockMain.AcquireLock in *. simpl SetNX in *.
  assert (E1 : Mock.SetNX (key lock) (value lock) ttl1 w =
               ((true, None),
                {| rdb := {| data := <[key lock := value lock]> (data (rdb w)) |};
                   sleepers := sleepers w ++
                     [{| wake := now w + Z.max 0 ttl1; rkey := key lock;
                         rvalue := value lock |}];
                   now := now w |})).
  { unfold Mock.SetNX. rewrite Hk. reflexivity. }
  assert (H1 : data (rdb w1) !! key lock = Some (value lock)).
  { unfold w1. rewrite E1. simpl. apply lookup_insert_eq. }
  assert (E2 : data (rdb w2) = data (rdb w)).
  { unfold w2. rewrite (Mock_release_holder _ _ H1). simpl.
    unfold w1. rewrite E1. simpl. rewrite delete_insert_eq. apply delete_id, Hk. }
  split; [rewrite E1; reflexivity |].
  split; [apply SetNX_live; eexists; exact H1 |].
  split; [rewrite (Mock_release_holder _ _ H1); reflexivity |].
  split; [exact E2 |].
  unfold Mock.SetNX. rewrite E2, Hk. reflexivity.
Qed.

Lemma X6_witness :
  let lock := {| key := "test-key"; value := "test-value" |} in
  let w := NewWorld 0 in
  let w1 := snd (MockMain.AcquireLock mock_client lock (1 * Second) w) in
  let w2 := snd (MockMain.ReleaseLock mock_client lock w1) in
  fst (MockMain.AcquireLock mock_client lock (1 * Second) w) = (true, None) /\
  MockMain.AcquireLock mock_client lock (1 * Second) w1 = ((false, None), w1) /\
  fst (MockMain.ReleaseLock mock_client lock w1) = None /\
  data (rdb w2) = data (rdb w) /\
  fst (MockMain.AcquireLock mock_client lock (1 * Second) w2) = (true, None).
Proof.
  intros lock w.
  apply (X6_lock_cycle lock (1 * Second) (1 * Second) (1 * Second) w).
  reflexivity.
Defined.

(** X7: over [MockRedis], [ReleaseLock] writes nothing: the record of every
    other key, the clock and the sleeping reapers are as before, and the
    record of its own key is either as before or gone.  In particular the
    reaper of a released lock stays asleep until its TTL ends. *)
Theorem X7_release_footprint :
  forall (lock : RedisLock) (w : World),
    let w' := snd (MockMain.ReleaseLock mock_client lock w) in
    (forall k, k <> key lock -> data (rdb w') !! k = data (rdb w) !! k) /\
    (data (rdb w') !! key lock = None \/ w' = w) /\
    sleepers w' = sleepers w /\
    now w' = now w.
Proof.
  intros lock w w'. unfold w'.
  destruct (data (rdb w) !! key lock) as [tok |] eqn:Ek.
  - destruct (String.eqb_spec tok (value lock)) as [-> | Hne].
    + rewrite (Mock_release_holder _ _ Ek). simpl.
      repeat split; try reflexivity.
      * intros k Hk. apply lookup_delete_ne. congruence.
      * left. apply lookup_delete_eq.
    + rewrite (Mock_release_other _ _ _ Ek Hne). simpl. repeat split; auto.
  - rewrite (Mock_release_absent _ _ Ek). simpl. repeat split; auto.
Qed.

Lemma X7_witness :
  let lock := {| key := "account:11111:lock"; value := "unique-identifier-3" |} in
  let w := snd (MockMain.AcquireLock mock_client lock (5 * Second) (NewWorld 3)) in
  sleepers (snd (MockMain.ReleaseLock mock_client lock w)) =
    [{| wake := 3 + 5 * Second; rkey := "account:11111:lock";
        rvalue := "unique-identifier-3" |}].
Proof.
  intros lock w.
  rewrite (proj1 (proj2 (proj2 (X7_release_footprint lock w)))).
  reflexivity.
Defined.

(** ** [ProcessTransaction] over [MockRedis] *)

Lemma Mock_SetNX_cases k v ttl w :
  (data (rdb w) !! k = None /\
   Mock.SetNX k v ttl w =
   ((true, None),
    {| rdb := {| data := <[k := v]> (data (rdb w)) |};
       sleepers := sleepers w ++ [{| wake := now w + Z.max 0 ttl; rkey := k; rvalue := v |}];
       now := now w |})) \/
  (Mock.live k w /\ Mock.SetNX k v ttl w = ((false, None), w)).
Proof.
  unfold Mock.SetNX, Mock.live. destruct (data (rdb w) !! k) eqn:E.
  - right. split; [eauto | reflexivity].
  - left. split; reflexivity.
Qed.

Lemma update_balance_outcome account amount :
  snd (update_balance account amount) = Processed \/
  snd (update_balance account amount) = InsufficientFunds.
Proof. unfold update_balance. destruct (_ && _); simpl; auto. Qed.

Ltac mock_attempt lock w :=
  let Hk := fresh "Hk" in
  destruct (Mock_SetNX_cases (key lock) (value lock) (5 * Second) w) as [[Hk ->] | [Hk ->]];
  change (0 =? 2) with false; change (1 =? 2) with false; change (2 =? 2) with true;
  lazy beta iota zeta.

(** X8: over [MockRedis] a [ProcessTransaction] never reports an error of
    the store.  When it has run the critical section, applied or rejected,
    the record of its lock is gone again when it returns; when it gives up,
    all it did to the world was to sleep twice 100 ms.  In every case the
    clock has moved by 100 ms for each attempt but the first. *)
Theorem X8_scoped_acquisition :
  forall (account : Account) (transaction : Transaction) (w : World),
    let r := MockMain.ProcessTransaction mock_client mock_clock account transaction w in
    let lock := MockMain.new_lock mock_clock account w in
    (forall e, reported r <> AcquireError e) /\
    (reported r = Processed \/ reported r = InsufficientFunds ->
       data (rdb (world r)) !! key lock = None) /\
    (reported r = LockAcquisitionFailed ->
       world r = Mock.Sleep (100 * Millisecond) (Mock.Sleep (100 * Millisecond) w)) /\
    now (world r) = now w + 100 * Millisecond * (Z.of_nat (length (attempts (trace r))) - 1).
Proof.
  intros account transaction w r lock. subst r.
  unfold MockMain.ProcessTransaction. fold lock. clearbody lock.
  unfold MockMain.retry_loop, MockMain.AcquireLock.
  change (SetNX mock_client) with Mock.SetNX.
  change (Sleep mock_clock) with Mock.Sleep.
  pose proof (update_balance_outcome account (Amount transaction)) as Ho.
  destruct (update_balance account (Amount transaction)) as [a' o']. simpl in Ho.
  assert (Ho1 : forall e, o' <> AcquireError e) by (intros e; destruct Ho; congruence).
  assert (Ho2 : o' <> LockAcquisitionFailed) by (destruct Ho; congruence).
  mock_attempt lock w;
    [| mock_attempt lock (Mock.Sleep (100 * Millisecond) w);
       [| mock_attempt lock (Mock.Sleep (100 * Millisecond)
                               (Mock.Sleep (100 * Millisecond) w))]];
    try (rewrite Mock_release_holder by (simpl; apply lookup_insert_eq));
    simpl;
    (split; [first [exact Ho1 | intros e; discriminate] |]);
    (split; [first [intros _; apply lookup_delete_eq | intros [H | H]; discriminate H] |]);
    (split; [first [intros H; contradiction | reflexivity] |]);
    unfold Millisecond; lia.
Qed.

Lemma X8_witness :
  let account := {| AccountNumber := "22222"; Balance := 2000 |} in
  let transaction := {| TxAccountNumber := "22222"; Amount := (-3000) |} in
  let r := MockMain.ProcessTransaction mock_client mock_clock account transaction
             (NewWorld 7) in
  reported r = InsufficientFunds /\
  data (rdb (world r)) !! "account:22222:lock" = None.
Proof.
  intros account transaction r. split; [reflexivity |].
  apply (proj1 (proj2 (X8_scoped_acquisition account transaction (NewWorld 7)))).
  right. reflexivity.
Defined.

Lemma pending_expired k v wake0 d w :
  pending k v wake0 w -> wake0 <= now w + Z.max 0 d ->
  data (rdb (Mock.Sleep d w)) !! k = None.
Proof.
  intros [Hgone | (Hmine & _ & r & Hin & Hrk & Hrv & Hw)] Ht; simpl.
  - apply reap_all_gone, Hgone.
  - apply (reap_all_mine k v _ _ r); try assumption.
    + apply filter_In. split; [exact Hin |]. unfold Mock.due. apply Z.leb_le. lia.
    + right. exact Hmine.
Qed.

Lemma live_not_absent k w : Mock.live k w -> data (rdb w) !! k = None -> False.
Proof. intros [x Hx] H. congruence. Qed.

(** X9: the retry loop outlasts a lock that expires in time.  When the key
    is held by someone whose reaper wakes up within the next 200 ms, the
    [ProcessTransaction] gets the lock at the second or third attempt, runs
    the critical section, and leaves the key free. *)
Theorem X9_retry_outlasts_expiring_lock :
  forall (account : Account) (transaction : Transaction) (w : World) (v' : string),
    let lock := MockMain.new_lock mock_clock account w in
    data (rdb w) !! key lock = Some v' ->
    (exists r, In r (sleepers w) /\ rkey r = key lock /\ rvalue r = v' /\
               wake r <= now w + 200 * Millisecond) ->
    let r := MockMain.ProcessTransaction mock_client mock_clock account transaction w in
    (account_after r, reported r) = update_balance account (Amount transaction) /\
    (2 <= length (attempts (trace r)) <= 3)%nat /\
    data (rdb (world r)) !! key lock = None.
Proof.
  intros account transaction w v' lock Hheld Hreaper r. subst r.
  assert (P0 : pending (key lock) v' (now w + 200 * Millisecond) w).
  { right. split; [exact Hheld |]. split; [unfold Millisecond; lia | exact Hreaper]. }
  pose proof (pending_Sleep _ _ _ (100 * Millisecond) w P0) as P1.
  assert (G2 : data (rdb (Mock.Sleep (100 * Millisecond)
                            (Mock.Sleep (100 * Millisecond) w))) !! key lock = None).
  { apply (pending_expired _ _ _ _ _ P1). simpl. unfold Millisecond. lia. }
  unfold MockMain.ProcessTransaction. fold lock. clearbody lock.
  unfold MockMain.retry_loop, MockMain.AcquireLock.
  change (SetNX mock_client) with Mock.SetNX.
  change (Sleep mock_clock) with Mock.Sleep.
  destruct (update_balance account (Amount transaction)) as [a' o'].
  mock_attempt lock w; [congruence |].
  mock_attempt lock (Mock.Sleep (100 * Millisecond) w);
    [| mock_attempt lock (Mock.Sleep (100 * Millisecond)
                            (Mock.Sleep (100 * Millisecond) w));
       [| exfalso; eapply live_not_absent; eassumption]];
    rewrite Mock_release_holder by (simpl; apply lookup_insert_eq);
    simpl; (split; [reflexivity |]); (split; [lia |]); apply lookup_delete_eq.
Qed.

Lemma X9_witness :
  let account := {| AccountNumber := "11111"; Balance := 1000 |} in
  let transaction := {| TxAccountNumber := "11111"; Amount := (-200) |} in
  let w := Mock.Sleep (4850 * Millisecond)
             (snd (Mock.SetNX "account:11111:lock" "unique-identifier-0" (5 * Second)
                     (NewWorld 0))) in
  let r := MockMain.ProcessTransaction mock_client mock_clock account transaction w in
  (account_after r, reported r) = update_balance account (Amount transaction) /\
  (2 <= length (attempts (trace r)) <= 3)%nat /\
  data (rdb (world r)) !! "account:11111:lock" = None.
Proof.
  intros account transaction w.
  apply (X9_retry_outlasts_expiring_lock account transaction w "unique-identifier-0").
  - reflexivity.
  - eexists. split; [left; reflexivity |]. vm_compute. repeat split; discriminate.
Defined.

(** X10: the retry loop gives up on a lock that is held throughout.  When
    the key holds a record that no reaper removes within the next 200 ms,
    the three attempts fail, the transaction is reported as skipped, the
    account is as before, and the record of the holder is untouched. *)
Theorem X10_retry_gives_up_on_held_lock :
  forall (account : Account) (transaction : Transaction) (w : World) (v' : string),
    let lock := MockMain.new_lock mock_clock account w in
    held (key lock) v' (now w + 200 * Millisecond) w ->
    let r := MockMain.ProcessTransaction mock_client mock_clock account transaction w in
    reported r = LockAcquisitionFailed /\
    account_after r = account /\
    attempts (trace r) = [(false, None); (false, None); (false, None)] /\
    Mock.Get (key lock) (world r) = ((v', None), world r).
Proof.
  intros account transaction w v' lock H0 r. subst r.
  assert (H1 : held (key lock) v' (now w + 200 * Millisecond)
                 (Mock.Sleep (100 * Millisecond) w)).
  { apply held_Sleep; [exact H0 | unfold Millisecond; lia]. }
  assert (H2 : held (key lock) v' (now w + 200 * Millisecond)
                 (Mock.Sleep (100 * Millisecond) (Mock.Sleep (100 * Millisecond) w))).
  { apply held_Sleep; [exact H1 | simpl; unfold Millisecond; lia]. }
  destruct H0 as [L0 _], H1 as [L1 _], H2 as [L2 _].
  unfold MockMain.ProcessTransaction. fold lock. clearbody lock.
  unfold MockMain.retry_loop, MockMain.AcquireLock.
  change (SetNX mock_client) with Mock.SetNX.
  change (Sleep mock_clock) with Mock.Sleep.
  destruct (update_balance account (Amount transaction)) as [a' o'].
  mock_attempt lock w; [congruence |].
  mock_attempt lock (Mock.Sleep (100 * Millisecond) w); [congruence |].
  mock_attempt lock (Mock.Sleep (100 * Millisecond) (Mock.Sleep (100 * Millisecond) w));
    [congruence |].
  simpl. repeat split. apply Mock_Get_live, L2.
Qed.

Lemma X10_witness :
  let account := {| AccountNumber := "11111"; Balance := 1000 |} in
  let transaction := {| TxAccountNumber := "11111"; Amount := (-200) |} in
  let w := snd (Mock.SetNX "account:11111:lock" "unique-identifier-0" (5 * Second)
                  (NewWorld 0)) in
  let r := MockMain.ProcessTransaction mock_client mock_clock account transaction w in
  reported r = LockAcquisitionFailed /\
  account_after r = account /\
  attempts (trace r) = [(false, None); (false, None); (false, None)] /\
  Mock.Get "account:11111:lock" (world r) = (("unique-identifier-0", None), world r).
Proof.
  intros account transaction w.
  apply (X10_retry_gives_up_on_held_lock account transaction w "unique-identifier-0").
  split; [reflexivity |].
  constructor; [| constructor]. intros _ _. vm_compute. reflexivity.
Defined.

(** ** The Redis program *)

(** X11: the [ProcessTransaction] of [distributed/redis/main.go] asks for
    the lock once and never sleeps.  On an error of the client it reports
    that error, on the answer [false] it reports the transaction as skipped;
    in both cases the account is as before and [ReleaseLock] is not called.
    On the answer [true] it runs the critical section and then calls
    [ReleaseLock] once, whose result it ignores. *)
Theorem X11_redis_single_attempt :
  forall (W : Type) (client : RedisClient W) (account : Account)
         (transaction : Transaction) (w : W),
    let r := RedisMain.ProcessTransaction client account transaction w in
    let lock := RedisMain.new_lock account in
    let answer := fst (SetNX client (key lock) (value lock) (5 * Second) w) in
    let w1 := snd (SetNX client (key lock) (value lock) (5 * Second) w) in
    (forall e, snd answer = Some e ->
       r = {| world := w1; account_after := account; reported := AcquireError e;
              trace := [EvAcquire lock (5 * Second) false (Some e)] |}) /\
    (answer = (false, None) ->
       r = {| world := w1; account_after := account; reported := LockAcquisitionFailed;
              trace := [EvAcquire lock (5 * Second) false None] |}) /\
    (answer = (true, None) ->
       r = {| world := snd (RedisMain.ReleaseLock client lock w1);
              account_after := fst (update_balance account (Amount transaction));
              reported := snd (update_balance account (Amount transaction));
              trace := [EvAcquire lock (5 * Second) true None;
                        EvRelease lock (fst (RedisMain.ReleaseLock client lock w1))] |}) /\
    length (attempts (trace r)) = 1%nat /\
    Forall (fun ev => forall d, ev <> EvSleep d) (trace r).
Proof.
  intros W client account transaction w r lock answer w1.
  subst r answer w1. unfold RedisMain.ProcessTransaction, RedisMain.AcquireLock.
  fold lock. clearbody lock.
  destruct (SetNX client (key lock) (value lock) (5 * Second) w)
    as [[acquired [e |]] w1]; simpl.
  - repeat split; try discriminate.
    + intros e0 [= <-]. reflexivity.
    + repeat constructor; discriminate.
  - destruct acquired; simpl.
    + destruct (update_balance account (Amount transaction)) as [a' o'].
      destruct (RedisMain.ReleaseLock client lock w1) as [err' w2]. simpl.
      repeat split; try discriminate.
      repeat constructor; discriminate.
    + repeat split; try discriminate.
      repeat constructor; discriminate.
Qed.

Lemma X11_witness :
  let account := {| AccountNumber := "11111"; Balance := 1000 |} in
  let transaction := {| TxAccountNumber := "11111"; Amount := 300 |} in
  RedisMain.ProcessTransaction unreachable_client account transaction (NewWorld 0) =
  {| world := NewWorld 0; account_after := account;
     reported := AcquireError connection_refused;
     trace := [EvAcquire (RedisMain.new_lock account) (5 * Second) false
                 (Some connection_refused)] |}.
Proof.
  intros account transaction.
  apply (proj1 (X11_redis_single_attempt World unreachable_client account transaction
                  (NewWorld 0)) connection_refused).
  reflexivity.
Defined.

(** X12: over the test double [MockRedisClient], whose [Get] reads a missing
    key as the empty string without an error, [ReleaseLock] of the Redis
    program never fails: it returns [nil] also when the lock is not there.
    It removes the record exactly when the record holds the token of the
    lock, and otherwise leaves the world as it is.  The [ReleaseLock] of the
    mock program over [MockRedis] reports lock not found for a missing key. *)
Theorem X12_release_over_test_double :
  forall (lock : RedisLock) (w : World),
    fst (RedisMain.ReleaseLock test_double_client lock w) = None /\
    (data (rdb w) !! key lock = Some (value lock) ->
       snd (RedisMain.ReleaseLock test_double_client lock w) = without (key lock) w) /\
    (data (rdb w) !! key lock <> Some (value lock) ->
       snd (RedisMain.ReleaseLock test_double_client lock w) = w) /\
    (data (rdb w) !! key lock = None ->
       RedisMain.ReleaseLock test_double_client lock w = (None, w) /\
       fst (MockMain.ReleaseLock mock_client lock w) = Some lock_not_found).
Proof.
  intros lock w. unfold RedisMain.ReleaseLock, MockMain.ReleaseLock. simpl.
  unfold MockClient.Get, MockClient.Del, Mock.Get.
  destruct (data (rdb w) !! key lock) as [tok |] eqn:Ek; lazy beta iota zeta.
  - destruct (String.eqb_spec tok (value lock)) as [-> | Hne].
    + rewrite Ek. lazy beta iota zeta. cbn [fst snd].
      repeat split; try reflexivity; try discriminate.
      intros H. contradiction.
    + cbn [fst snd]. repeat split; try reflexivity; try discriminate.
      intros [= H]. contradiction.
  - destruct (String.eqb "" (value lock)); rewrite ?Ek; lazy beta iota zeta;
      cbn [fst snd]; repeat split; try reflexivity; discriminate.
Qed.

Lemma X12_witness :
  let lock := RedisMain.new_lock {| AccountNumber := "11111"; Balance := 1000 |} in
  RedisMain.ReleaseLock test_double_client lock (NewWorld 0) = (None, NewWorld 0) /\
  fst (MockMain.ReleaseLock mock_client lock (NewWorld 0)) = Some lock_not_found.
Proof.
  intros lock.
  apply (proj2 (proj2 (proj2 (X12_release_over_test_double lock (NewWorld 0))))).
  reflexivity.
Defined.

(** X20: over the test double, the [ProcessTransaction] of the Redis
    program on a free key runs the critical section and leaves the map of
    locks and the clock as they were.  On a key that holds a record,
    whoever wrote it, it gives up at once: the transaction is reported as
    skipped and is lost, the account and the world are untouched. *)
Theorem X20_adapter_over_test_double :
  forall (account : Account) (transaction : Transaction) (w : World),
    let lock := RedisMain.new_lock account in
    let r := RedisMain.ProcessTransaction test_double_client account transaction w in
    (data (rdb w) !! key lock = None ->
       (account_after r, reported r) = update_balance account (Amount transaction) /\
       data (rdb (world r)) = data (rdb w) /\ now (world r) = now w /\
       attempts (trace r) = [(true, None)]) /\
    (is_Some (data (rdb w) !! key lock) ->
       reported r = LockAcquisitionFailed /\ account_after r = account /\ world r = w /\
       attempts (trace r) = [(false, None)]).
Proof.
  intros account transaction w lock r. subst r.
  unfold RedisMain.ProcessTransaction, RedisMain.AcquireLock, RedisMain.ReleaseLock.
  fold lock. clearbody lock.
  change (SetNX test_double_client) with MockClient.SetNX.
  change (Get test_double_client) with MockClient.Get.
  change (Del test_double_client) with MockClient.Del.
  unfold MockClient.SetNX.
  split.
  - intros Hk. rewrite Hk. change (negb true) with false. lazy beta iota zeta.
    destruct (update_balance account (Amount transaction)) as [a' o'].
    unfold MockClient.Get, MockClient.Del. cbn [rdb data].
    rewrite lookup_insert_eq. lazy beta iota zeta.
    rewrite String.eqb_refl. cbn [rdb data]. rewrite lookup_insert_eq. lazy beta iota zeta.
    cbn [world account_after reported trace rdb data now].
    repeat split. rewrite delete_insert_eq. apply delete_id, Hk.
  - intros [tok Hk]. rewrite Hk. repeat split.
Qed.

(** ** The critical section on whole numbers *)

Lemma float_of_Z_ltb z : Z.abs z < 2 ^ 53 -> (float_of_Z z <? 0)%float = (z <? 0).
Proof.
  intros Hz. rewrite FloatAxioms.ltb_spec, Prim2SF_float_of_Z, Prim2SF_zero by assumption.
  destruct z as [| p | p].
  - reflexivity.
  - rewrite BN_pos by lia. reflexivity.
  - rewrite BN_neg by lia. reflexivity.
Qed.

Lemma debits_nonpos zs : debits zs <= 0.
Proof. induction zs; simpl; lia. Qed.

Lemma debits_Permutation zs zs' : Permutation zs zs' -> debits zs = debits zs'.
Proof. induction 1; simpl in *; lia. Qed.

Lemma update_balance_whole name b z :
  Z.abs b < 2 ^ 53 -> Z.abs z < 2 ^ 53 -> Z.abs (b + z) < 2 ^ 53 ->
  update_balance {| AccountNumber := name; Balance := float_of_Z b |} (float_of_Z z) =
  if (z <? 0) && (b + z <? 0)
  then ({| AccountNumber := name; Balance := float_of_Z b |}, InsufficientFunds)
  else ({| AccountNumber := name; Balance := float_of_Z (b + z) |}, Processed).
Proof.
  intros Hb Hz Hbz. unfold update_balance. cbn [Balance AccountNumber].
  rewrite float_of_Z_add, !float_of_Z_ltb by assumption. reflexivity.
Qed.

(** X13: on whole numbers the critical section computes in float64 what it
    would compute on integers.  For a balance [b] and an amount [z] with
    [|b|], [|z|] and [|b + z|] below [2^53], the transaction is rejected
    exactly when [z < 0] and [b + z < 0], and the balance is then unchanged;
    otherwise the new balance is the float64 of [b + z], without rounding.
    A rejected debit is therefore larger than the balance, and an applied
    one is not. *)
Theorem X13_critical_section_on_whole_numbers :
  forall (name : string) (b z : Z),
    Z.abs b < 2 ^ 53 -> Z.abs z < 2 ^ 53 -> Z.abs (b + z) < 2 ^ 53 ->
    let account := {| AccountNumber := name; Balance := float_of_Z b |} in
    (snd (update_balance account (float_of_Z z)) = InsufficientFunds <->
       z < 0 /\ b < - z) /\
    (snd (update_balance account (float_of_Z z)) = InsufficientFunds ->
       fst (update_balance account (float_of_Z z)) = account) /\
    (snd (update_balance account (float_of_Z z)) = Processed ->
       fst (update_balance account (float_of_Z z)) =
       {| AccountNumber := name; Balance := float_of_Z (b + z) |}).
Proof.
  intros name b z Hb Hz Hbz account. subst account.
  rewrite update_balance_whole by assumption.
  destruct (z <? 0) eqn:E1; [destruct (b + z <? 0) eqn:E2 |]; cbn [andb fst snd];
    rewrite ?Z.ltb_lt, ?Z.ltb_ge in *;
    (split; [split; [intros H; try discriminate H; lia | intros [? ?]; try reflexivity; lia]
            | split; intros H; try discriminate H; reflexivity]).
Qed.

Lemma X13_witness :
  snd (update_balance {| AccountNumber := "22222"; Balance := float_of_Z 1500 |}
         (float_of_Z (-3000))) = InsufficientFunds <-> -3000 < 0 /\ 1500 < - -3000.
Proof.
  apply (proj1 (X13_critical_section_on_whole_numbers "22222" 1500 (-3000)
                  ltac:(vm_compute; reflexivity) ltac:(vm_compute; reflexivity)
                  ltac:(vm_compute; reflexivity))).
Defined.

Lemma process_all_funded name order :
  forall b : Z,
    Z.abs b + magnitude order < 2 ^ 53 -> 0 <= b + debits order ->
    Single.process_all {| AccountNumber := name; Balance := float_of_Z b |}
      (List.map float_of_Z order) =
    ({| AccountNumber := name; Balance := float_of_Z (b + total order) |},
     List.map (fun _ => Processed) order).
Proof.
  induction order as [| z order IH]; intros b Hrange Hfunds.
  - simpl. rewrite Z.add_0_r. reflexivity.
  - cbn [magnitude debits total fold_right] in *.
    fold (magnitude order) in *. fold (debits order) in *. fold (total order).
    pose proof (magnitude_nonneg order). pose proof (debits_nonpos order).
    cbn [List.map Single.process_all]. unfold Single.ProcessTransaction.
    rewrite update_balance_whole by lia.
    replace ((z <? 0) && (b + z <? 0)) with false
      by (symmetry; apply andb_false_iff; rewrite !Z.ltb_ge; lia).
    rewrite (IH (b + z)) by lia.
    f_equal. f_equal. f_equal. lia.
Qed.

(** X14: when the balance covers all the debits together, no order of the
    transactions rejects any of them.  For a balance [b] and whole amounts
    [zs] with [|b| + sum of |z|] below [2^53] and [b + (sum of the negative
    amounts) >= 0], every order of the amounts reports every transaction as
    processed and ends at the balance [b + sum of zs]. *)
Theorem X14_funded_account_rejects_nothing :
  forall (name : string) (b : Z) (zs order : list Z),
    Z.abs b + magnitude zs < 2 ^ 53 ->
    0 <= b + debits zs ->
    Permutation zs order ->
    Single.process_all {| AccountNumber := name; Balance := float_of_Z b |}
      (List.map float_of_Z order) =
    ({| AccountNumber := name; Balance := float_of_Z (b + total zs) |},
     List.map (fun _ => Processed) order).
Proof.
  intros name b zs order Hrange Hfunds Hperm.
  rewrite (magnitude_Permutation _ _ Hperm) in Hrange.
  rewrite (debits_Permutation _ _ Hperm) in Hfunds.
  rewrite (total_Permutation _ _ Hperm).
  apply process_all_funded; assumption.
Qed.

Lemma X14_witness :
  Single.process_all {| AccountNumber := "11111"; Balance := float_of_Z 1000 |}
    (List.map float_of_Z [100; -200; 300]) =
  ({| AccountNumber := "11111"; Balance := float_of_Z (1000 + total [-200; 300; 100]) |},
   [Processed; Processed; Processed]).
Proof.
  apply (X14_funded_account_rejects_nothing "11111" 1000 [-200; 300; 100] [100; -200; 300]).
  - vm_compute. reflexivity.
  - vm_compute. discriminate.
  - symmetry. apply (Permutation_cons_append [-200; 300] 100).
Defined.

(** ** The loop of [main] *)

Lemma update_balance_number account amount :
  AccountNumber (fst (update_balance account amount)) = AccountNumber account.
Proof. unfold update_balance. destruct (_ && _); reflexivity. Qed.

Lemma run_lookup order :
  forall (accs : gmap string Account) (k : string),
    fst (Single.run order accs) !! k =
    (fun a => fst (Single.process_all a (amounts_on k order))) <$> accs !! k.
Proof.
  induction order as [| t order IH]; intros accs k.
  - simpl. destruct (accs !! k); reflexivity.
  - cbn [Single.run]. unfold amounts_on. cbn [List.filter].
    fold (amounts_on k order).
    destruct (accs !! TxAccountNumber t) as [account |] eqn:Et.
    + destruct (Single.ProcessTransaction account (Amount t)) as [account' out] eqn:Ep.
      specialize (IH (<[TxAccountNumber t := account']> accs) k).
      destruct (Single.run order _) as [final log]. cbn [fst] in *. rewrite IH.
      destruct (String.eqb_spec (TxAccountNumber t) k) as [<- | Hne].
      * rewrite lookup_insert_eq, Et. cbn [List.map Single.process_all fmap option_fmap option_map].
        rewrite Ep. fold (amounts_on (TxAccountNumber t) order).
        destruct (Single.process_all account' _) as [final' outs]. reflexivity.
      * rewrite lookup_insert_ne by assumption. reflexivity.
    + specialize (IH accs k).
      destruct (Single.run order accs) as [final log]. cbn [fst] in *. rewrite IH.
      destruct (String.eqb_spec (TxAccountNumber t) k) as [<- | Hne]; [| reflexivity].
      rewrite Et. reflexivity.
Qed.

(** X15: the accounts do not interfere.  After the loop of [main] of
    [single/main.go], in whatever order the critical sections were entered,
    the account under a number is the one that the transactions on that
    number alone, in their order, lead to; an account that no transaction
    names is as it was, and no account appears or disappears. *)
Theorem X15_accounts_are_independent :
  forall (order : list Transaction) (accs : gmap string Account) (k : string),
    fst (Single.run order accs) !! k =
      (fun a => fst (Single.process_all a (amounts_on k order))) <$> accs !! k /\
    (Forall (fun t => TxAccountNumber t <> k) order ->
       fst (Single.run order accs) !! k = accs !! k) /\
    (is_Some (fst (Single.run order accs) !! k) <-> is_Some (accs !! k)).
Proof.
  intros order accs k. rewrite run_lookup. split; [reflexivity | split].
  - intros Hnone. replace (amounts_on k order) with (@nil float).
    + destruct (accs !! k); reflexivity.
    + unfold amounts_on. induction Hnone as [| t rest Ht _ IH]; [reflexivity |].
      cbn [List.filter]. destruct (String.eqb_spec (TxAccountNumber t) k); [contradiction |].
      exact IH.
  - rewrite fmap_is_Some. reflexivity.
Qed.

Lemma run_log_present order :
  forall accs : gmap string Account,
    Forall (fun entry => is_Some (snd entry) <-> is_Some (accs !! TxAccountNumber (fst entry)))
           (snd (Single.run order accs)).
Proof.
  induction order as [| t order IH]; intros accs; [constructor |].
  cbn [Single.run].
  destruct (accs !! TxAccountNumber t) as [account |] eqn:Et.
  - destruct (Single.ProcessTransaction account (Amount t)) as [account' out].
    specialize (IH (<[TxAccountNumber t := account']> accs)).
    destruct (Single.run order _) as [final log]. cbn [snd] in *.
    constructor.
    + cbn [fst snd]. rewrite Et. split; intros _; eexists; reflexivity.
    + eapply Forall_impl; [exact IH |].
      intros entry Hentry. cbv beta in Hentry |- *. rewrite Hentry.
      destruct (String.eqb_spec (TxAccountNumber t) (TxAccountNumber (fst entry)))
        as [<- | Hne].
      * rewrite lookup_insert_eq, Et. split; intros _; eexists; reflexivity.
      * rewrite lookup_insert_ne by assumption. reflexivity.
  - specialize (IH accs).
    destruct (Single.run order accs) as [final log]. cbn [snd] in *.
    constructor; [| exact IH].
    cbn [fst snd]. rewrite Et. split; intros [? H]; discriminate H.
Qed.

(** X16: the loop of [main] of [single/main.go] reports every transaction
    once and in the order taken: a transaction is answered "Account not
    found" exactly when the map of accounts has no entry under its number,
    and is otherwise processed or rejected, never skipped; an account keeps
    the number it was created with. *)
Theorem X16_every_transaction_is_answered :
  forall (order : list Transaction) (accs : gmap string Account),
    List.map fst (snd (Single.run order accs)) = order /\
    Forall (fun entry =>
              (snd entry = None <-> accs !! TxAccountNumber (fst entry) = None) /\
              (snd entry = None \/ snd entry = Some Processed \/
               snd entry = Some InsufficientFunds))
           (snd (Single.run order accs)) /\
    (forall k a a', accs !! k = Some a -> fst (Single.run order accs) !! k = Some a' ->
                    AccountNumber a' = AccountNumber a).
Proof.
  intros order accs. split; [| split].
  - revert accs. induction order as [| t order IH]; intros accs; [reflexivity |].
    cbn [Single.run].
    destruct (accs !! TxAccountNumber t) as [account |].
    + destruct (Single.ProcessTransaction account (Amount t)) as [account' out].
      specialize (IH (<[TxAccountNumber t := account']> accs)).
      destruct (Single.run order _) as [final log]. cbn [snd List.map fst] in *.
      rewrite IH. reflexivity.
    + specialize (IH accs).
      destruct (Single.run order accs) as [final log]. cbn [snd List.map fst] in *.
      rewrite IH. reflexivity.
  - apply Forall_and. split.
    + eapply Forall_impl; [apply run_log_present |].
      intros entry Hentry. cbv beta in Hentry |- *.
      rewrite !eq_None_not_Some, Hentry. reflexivity.
    + revert accs. induction order as [| t order IH]; intros accs; [constructor |].
      cbn [Single.run].
      destruct (accs !! TxAccountNumber t) as [account |].
      * unfold Single.ProcessTransaction.
        pose proof (update_balance_outcome account (Amount t)) as Hout.
        destruct (update_balance account (Amount t)) as [account' out].
        specialize (IH (<[TxAccountNumber t := account']> accs)).
        destruct (Single.run order _) as [final log]. cbn [snd] in *.
        constructor; [| exact IH].
        destruct Hout as [-> | ->]; auto.
      * specialize (IH accs).
        destruct (Single.run order accs) as [final log]. cbn [snd] in *.
        constructor; [left; reflexivity | exact IH].
  - intros k a a' Ha. rewrite run_lookup, Ha. intros [= <-].
    apply (process_all_invariant (fun x => AccountNumber x = AccountNumber a));
      [| reflexivity].
    intros x amount Hx. rewrite update_balance_number. exact Hx.
Qed.

(** ** The mock program without contention *)

Lemma MockMain_uncontended_world account transaction w :
  data (rdb w) = ∅ ->
  let r := MockMain.ProcessTransaction mock_client mock_clock account transaction w in
  now (world r) = now w /\
  sleepers (world r) =
  sleepers w ++ [{| wake := now w + 5 * Second;
                    rkey := key (MockMain.new_lock mock_clock account w);
                    rvalue := value (MockMain.new_lock mock_clock account w) |}] /\
  attempts (trace r) = [(true, None)].
Proof.
  intros Hempty. unfold MockMain.ProcessTransaction.
  set (lock := MockMain.new_lock mock_clock account w).
  assert (Hk : data (rdb w) !! key lock = None) by (rewrite Hempty; apply lookup_empty).
  clearbody lock.
  unfold MockMain.retry_loop, MockMain.AcquireLock.
  change (SetNX mock_client) with Mock.SetNX.
  assert (Hset : Mock.SetNX (key lock) (value lock) (5 * Second) w =
                 ((true, None),
                  {| rdb := {| data := <[key lock := value lock]> (data (rdb w)) |};
                     sleepers := sleepers w ++
                       [{| wake := now w + Z.max 0 (5 * Second);
                           rkey := key lock; rvalue := value lock |}];
                     now := now w |})).
  { unfold Mock.SetNX. rewrite Hk. reflexivity. }
  rewrite Hset. lazy beta iota zeta.
  destruct (update_balance account (Amount transaction)) as [a' o'].
  rewrite Mock_release_holder by (simpl; apply lookup_insert_eq).
  repeat split.
Qed.

(** X17: when the goroutines of the mock program run one after the other
    on an empty store, no [ProcessTransaction] meets a held lock: the
    accounts at the end and all that is reported are those of the program
    with one mutex per account, the store is empty again, no call has
    slept, and every transaction on an existing account has left one expiry
    goroutine behind. *)
Theorem X17_sequential_mock_run :
  forall (order : list Transaction) (accs : gmap string Account) (w : World),
    data (rdb w) = ∅ ->
    fst (MockMain.run mock_client mock_clock order accs w) = Single.run order accs /\
    data (rdb (snd (MockMain.run mock_client mock_clock order accs w))) = ∅ /\
    now (snd (MockMain.run mock_client mock_clock order accs w)) = now w /\
    length (sleepers (snd (MockMain.run mock_client mock_clock order accs w))) =
      (length (sleepers w) +
       length (List.filter (fun entry => bool_decide (is_Some (snd entry)))
                 (snd (Single.run order accs))))%nat.
Proof.
  intros order accs w Hempty.
  split; [apply MockMain_run_uncontended, Hempty |].
  revert accs w Hempty.
  induction order as [| t order IH]; intros accs w Hempty.
  - simpl. repeat split; [exact Hempty | lia].
  - cbn [MockMain.run Single.run].
    destruct (accs !! TxAccountNumber t) as [account |] eqn:Ea.
    + destruct (MockMain_uncontended account t w Hempty) as [Hr Hw].
      destruct (MockMain_uncontended_world account t w Hempty) as (Hnow & Hsl & _).
      unfold Single.ProcessTransaction. rewrite <- Hr.
      specialize (IH (<[TxAccountNumber t :=
                        account_after (MockMain.ProcessTransaction mock_client mock_clock
                                         account t w)]> accs) _ Hw).
      destruct (MockMain.run mock_client mock_clock order _ _) as [[final log] w'].
      destruct (Single.run order _) as [final0 log0].
      cbn [fst snd List.filter] in *.
      destruct IH as (H1 & H2 & H3).
      rewrite bool_decide_eq_true_2 by (eexists; reflexivity).
      rewrite Hsl, length_app in H3. cbn [length] in *.
      repeat split; [exact H1 | congruence | lia].
    + specialize (IH accs w Hempty).
      destruct (MockMain.run mock_client mock_clock order accs w) as [[final log] w'].
      destruct (Single.run order accs) as [final0 log0].
      cbn [fst snd List.filter] in *.
      rewrite bool_decide_eq_false_2 by (intros [? H]; discriminate H).
      exact IH.
Qed.

Lemma X17_witness :
  fst (MockMain.run mock_client mock_clock transactions accounts (NewWorld 0)) =
    Single.run transactions accounts /\
  data (rdb (snd (MockMain.run mock_client mock_clock transactions accounts (NewWorld 0)))) = ∅.
Proof.
  pose proof (X17_sequential_mock_run transactions accounts (NewWorld 0) eq_refl)
    as (H1 & H2 & _).
  split; [exact H1 | exact H2].
Defined.

(** ** The balance service *)

Lemma Service_accounts_lookup (accountNumber : string) :
  (exists account, Service.accounts !! accountNumber = Some account /\
                   Service.AccountNumber account = accountNumber /\
                   (accountNumber = "123456" \/ accountNumber = "654321")) \/
  (Service.accounts !! accountNumber = None /\
   accountNumber <> "123456" /\ accountNumber <> "654321").
Proof.
  unfold Service.accounts.
  destruct (decide (accountNumber = "123456")) as [-> | H1].
  - left. eexists. rewrite lookup_insert_eq. repeat split. left. reflexivity.
  - destruct (decide (accountNumber = "654321")) as [-> | H2].
    + left. eexists. rewrite lookup_insert_ne, lookup_insert_eq by discriminate.
      repeat split. right. reflexivity.
    + right. rewrite !lookup_insert_ne, lookup_empty by congruence.
      repeat split; assumption.
Qed.

(** X18: [GetBalance] succeeds exactly for the two account numbers of the
    table.  On success the account returned carries the number asked for
    and the call has slept 100 ms; on failure it returns the zero account
    with the error "account not found" and has not slept. *)
Theorem X18_get_balance :
  forall (W : Type) (time : Clock W) (accountNumber : string) (w : W),
    let r := Service.GetBalance time accountNumber w in
    (snd (fst r) = None <-> accountNumber = "123456" \/ accountNumber = "654321") /\
    (snd (fst r) = None ->
       Service.AccountNumber (fst (fst r)) = accountNumber /\
       snd r = Sleep time (100 * Millisecond) w) /\
    (snd (fst r) <> None ->
       r = ((Service.zero_account, Some Service.account_not_found), w)).
Proof.
  intros W time accountNumber w r. subst r. unfold Service.GetBalance.
  destruct (Service_accounts_lookup accountNumber)
    as [(account & -> & Hn & Hk) | (-> & H1 & H2)]; cbn [fst snd].
  - split; [split; [intros _; exact Hk | reflexivity] |].
    split; [intros _; split; [exact Hn | reflexivity] |].
    intros H. contradiction H. reflexivity.
  - split; [split; [discriminate | intros [H | H]; contradiction] |].
    split; [discriminate | reflexivity].
Qed.

(** X19: the status of the reply of [GetAccountBalanceHandler] depends on
    the query parameter alone: 400 exactly when it is empty or missing, 200
    exactly when it is one of the two account numbers of the table, 404 in
    every other case.  A 200 reply is the JSON of the account with the
    number asked for and has taken the 100 ms of [GetBalance]; a 400 or 404
    reply is a text and leaves the world as it was. *)
Theorem X19_balance_endpoint :
  forall (W : Type) (time : Clock W) (accountNumber : string) (w : W),
    let reply := fst (Handler.GetAccountBalanceHandler time accountNumber w) in
    let w' := snd (Handler.GetAccountBalanceHandler time accountNumber w) in
    (Handler.status reply = Handler.StatusBadRequest <-> accountNumber = "") /\
    (Handler.status reply = Handler.StatusOK <->
       accountNumber = "123456" \/ accountNumber = "654321") /\
    (Handler.status reply = Handler.StatusNotFound <->
       accountNumber <> "" /\ accountNumber <> "123456" /\ accountNumber <> "654321") /\
    (Handler.status reply = Handler.StatusOK ->
       (exists account, Handler.payload reply = Handler.Json account /\
                        Service.AccountNumber account = accountNumber) /\
       Handler.content_type reply = "application/json" /\
       w' = Sleep time (100 * Millisecond) w) /\
    (Handler.status reply <> Handler.StatusOK ->
       (exists msg, Handler.payload reply = Handler.Text msg) /\ w' = w).
Proof.
  intros W time accountNumber w reply w'. subst reply w'.
  unfold Handler.GetAccountBalanceHandler, Service.GetBalance.
  destruct (String.eqb_spec accountNumber "") as [-> | Hne].
  - cbn [fst snd Handler.http_Error Handler.status Handler.payload].
    unfold Handler.StatusBadRequest, Handler.StatusOK, Handler.StatusNotFound.
    split; [split; reflexivity |].
    split; [split; [discriminate | intros [H | H]; discriminate H] |].
    split; [split; [discriminate | intros (H & _); contradiction H; reflexivity] |].
    split; [discriminate |].
    intros _. split; [eexists; reflexivity | reflexivity].
  - destruct (Service_accounts_lookup accountNumber)
      as [(account & -> & Hn & Hk) | (-> & H1 & H2)];
      cbn [fst snd Handler.http_Error Handler.status Handler.payload Handler.content_type];
      unfold Handler.StatusBadRequest, Handler.StatusOK, Handler.StatusNotFound.
    + split; [split; [discriminate | intros H; contradiction] |].
      split; [split; [intros _; exact Hk | reflexivity] |].
      split; [split; [discriminate | intros (_ & H1 & H2); destruct Hk; contradiction] |].
      split.
      * intros _. split; [| split; reflexivity].
        eexists. split; [reflexivity | exact Hn].
      * intros H. contradiction H. reflexivity.
    + split; [split; [discriminate | intros H; contradiction] |].
      split; [split; [discriminate | intros [H | H]; contradiction] |].
      split; [split; [intros _; repeat split; assumption | reflexivity] |].
      split; [discriminate |].
      intros _. split; [eexists; reflexivity | reflexivity].
Qed.
